(** * dusted-go/security: tokens, password hashes and their primitives

    A shallow embedding of the Go packages [compare], [pkcs7], [rng], [aes],
    [sig], [token] and [pwd], and the properties of the specification that
    were checked against them.

    Conventions of the embedding:
    - a Go [string] is a [string]; a [[]byte] is a [list byte]; the
      conversions [[]byte(s)] and [string(b)] are [list_byte_of_string] and
      [string_of_list_byte];
    - a Go [int] is a [Z].  Every [int] below is a length, a difference of
      lengths that is checked before use, or a caller's block size, and the
      arithmetic done on them stays within the 64-bit range, so no
      wrap-around is written; the one narrowing conversion, [byte(padLen)],
      is written out as reduction modulo 256;
    - a call either returns a value, returns an error, or panics: [outcome];
    - an [error] is identified with its message, the string [err.Error()]
      returns. *)

From Stdlib Require Import ZArith List Bool Lia.
From Stdlib.Strings Require Import String Ascii Byte.
From Stdlib.Numbers Require Import DecimalString DecimalZ.
Import ListNotations.

Local Open Scope Z_scope.
Local Open Scope list_scope.

(** ** The Go run time *)

(** What a call does: [(a, nil)], [(zero, err)], or a run-time panic. *)
Inductive outcome (A : Type) : Type :=
| Value (a : A)
| Error (err : string)
| Panic.

Arguments Value {A} a.
Arguments Error {A} err.
Arguments Panic {A}.

(** Sequencing of a call that cannot be recovered from: a panic (or an error)
    of [m] is the result of the whole. *)
Definition bind {A B : Type} (m : outcome A) (k : A -> outcome B) : outcome B :=
  match m with
  | Value a => k a
  | Error err => Error err
  | Panic => Panic
  end.

(** [x, err := m; if err != nil { return nil, f(err) }; k]. *)
Definition orReturn {A B : Type} (m : outcome A) (f : string -> string)
  (k : A -> outcome B) : outcome B :=
  match m with
  | Value a => k a
  | Error err => Error (f err)
  | Panic => Panic
  end.

Notation "x <- m ;; k" := (bind m (fun x => k))
  (at level 61, m at next level, right associativity).
Notation "'try' x <- m 'or' f ;; k" := (orReturn m f (fun x => k))
  (at level 61, x name, m at next level, f at next level, right associativity).

(** [len(s)] of a slice and of a string. *)
Definition len {A : Type} (s : list A) : Z := Z.of_nat (List.length s).
Definition strlen (s : string) : Z := Z.of_nat (String.length s).

(** [byte(n)] keeps the low eight bits of an [int]; [int(b)] widens. *)
Definition byteOfInt (n : Z) : byte :=
  match Byte.of_N (Z.to_N (n mod 256)) with
  | Some b => b
  | None => x00
  end.
Definition intOfByte (b : byte) : Z := Z.of_N (Byte.to_N b).

(** The slice expressions [s[lo:]] and [s[:hi]].  Both panic when the index
    is out of range.  For [s[:hi]] Go checks [hi] against the capacity; a
    slice is modelled with its capacity equal to its length, which is all
    that the one use below ([aes.Decrypt]) can tell apart, since it goes on
    to take [s[hi:]] of the same slice. *)
Definition sliceFrom {A : Type} (s : list A) (lo : Z) : outcome (list A) :=
  if (lo <? 0) || (len s <? lo) then Panic
  else Value (skipn (Z.to_nat lo) s).
Definition sliceTo {A : Type} (s : list A) (hi : Z) : outcome (list A) :=
  if (hi <? 0) || (len s <? hi) then Panic
  else Value (firstn (Z.to_nat hi) s).

(** The verbs [%d] and [%v] applied to an [int]. *)
Definition itoa (n : Z) : string := NilZero.string_of_int (Z.to_int n).

(** Package [bytes]. *)
Module bytes.

(** [bytes.Repeat(b, count)]: [count] copies of [b]; a negative count panics. *)
Definition Repeat (b : list byte) (count : Z) : outcome (list byte) :=
  if count <? 0 then Panic
  else Value (List.concat (List.repeat b (Z.to_nat count))).

End bytes.

(** Package [strings], for separators of one byte (the only ones used). *)
Module strings.

(** [strings.Cut(s, sep)]: the text before and after the first [sep]. *)
Fixpoint Cut (s : string) (sep : ascii) : option (string * string) :=
  match s with
  | EmptyString => None
  | String c rest =>
      if Ascii.eqb c sep then Some (EmptyString, rest)
      else match Cut rest sep with
           | Some (before, after) => Some (String c before, after)
           | None => None
           end
  end.

(** The loop of [genSplit]: at most [n] cuts, the rest of the string last. *)
Fixpoint splitLoop (n : nat) (s : string) (sep : ascii) : list string :=
  match n with
  | O => [s]
  | S n' =>
      match Cut s sep with
      | None => [s]
      | Some (before, after) => before :: splitLoop n' after sep
      end
  end.

(** [strings.SplitN(s, sep, n)]: nothing for [n = 0], every piece for
    [n < 0], else at most [n] pieces, the last one unsplit. *)
Definition SplitN (s : string) (sep : ascii) (n : Z) : list string :=
  if n =? 0 then []
  else if n <? 0 then splitLoop (String.length s) s sep
  else splitLoop (Z.to_nat (n - 1)) s sep.

(** [strings.Split(s, sep)] is [SplitN(s, sep, -1)]. *)
Definition Split (s : string) (sep : ascii) : list string := SplitN s sep (-1).

(** [strings.HasPrefix(s, prefix)]. *)
Definition HasPrefix (s prefix : string) : bool := String.prefix prefix s.

(** [strings.ContainsRune(s, c)] for a one-byte [c]. *)
Definition Contains (s : string) (c : ascii) : bool :=
  match Cut s c with
  | Some _ => true
  | None => false
  end.

End strings.

(** ** Package [compare] *)
Module compare.

(** [Hashes]: unequal lengths differ at once; otherwise every byte of
    [hash1] is compared, whatever the earlier ones gave. *)
Definition Hashes (hash1 hash2 : list byte) : bool :=
  if negb (len hash1 =? len hash2) then false
  else
    fold_left
      (fun (equal : bool) (p : byte * byte) => equal && Byte.eqb (fst p) (snd p))
      (List.combine hash1 hash2) true.

End compare.

(** ** Package [pkcs7] *)
Module pkcs7.

Definition Pad (data : list byte) (blockSize : Z) : outcome (list byte) :=
  if blockSize <? 1 then
    Error ("pkcs7: Invalid block size " ++ itoa blockSize)
  else
    let padLen := blockSize - Z.rem (len data) blockSize in
    let padLen := if padLen =? 0 then blockSize else padLen in
    let padding := [byteOfInt padLen] in
    padding <- bytes.Repeat padding padLen ;;
    Value (data ++ padding).

Definition Unpad (data : list byte) (blockSize : Z) : outcome (list byte) :=
  if blockSize <? 1 then
    Error ("pkcs7: Invalid block size " ++ itoa blockSize)
  else if negb (Z.rem (len data) blockSize =? 0) || (len data =? 0) then
    Error ("pkcs7: Invalid data length " ++ itoa (len data))
  else
    let padLen := intOfByte (List.last data x00) in
    padding <- sliceFrom data (len data - padLen) ;;
    if existsb (fun padByte => negb (Byte.eqb padByte (byteOfInt padLen))) padding
    then Error "pkcs7: Invalid padding"
    else sliceTo data (len data - padLen).

End pkcs7.

(** ** The libraries the packages are built on

    The Go standard library, [golang.org/x/crypto/pbkdf2] and
    [github.com/dusted-go/encoding/base62] are not part of the repository.
    Their functions are the fields of [GoStdlib]; what the proofs use of
    their documented behaviour is stated in [GoStdlibSpec]. *)

(** Package [time].  A [time.Time] is the instant it denotes, in nanoseconds
    since the Unix epoch (a location changes how an instant prints, not the
    instant); a [time.Duration] is a number of nanoseconds. *)
Module time.

Definition Time : Type := Z.
Definition Duration : Type := Z.

Definition Second : Duration := 1000000000.

(** [t.UTC()] is the same instant. *)
Definition UTC (t : Time) : Time := t.
(** [t.Add(d)]. *)
Definition Add (t : Time) (d : Duration) : Time := t + d.
(** [t.After(u)]: strictly later. *)
Definition After (t u : Time) : bool := u <? t.

(** The whole second an instant lies in: what the layout [time.RFC3339],
    which has no fractional seconds, prints of it. *)
Definition truncateToSecond (t : Time) : Time := t - t mod Second.

(** The instants of the years 0000 to 9999, the ones RFC 3339 can write. *)
Definition inRFC3339Range (t : Time) : Prop :=
  -62167219200 <= t / Second < 253402300800.

End time.

Class GoStdlib : Type := {
  (** [encoding/base64]: [RawURLEncoding] and [StdEncoding];
      [DecodeString] gives [None] when it returns an error. *)
  base64_RawURLEncoding_EncodeToString : list byte -> string;
  base64_RawURLEncoding_DecodeString : string -> option (list byte);
  base64_StdEncoding_EncodeToString : list byte -> string;
  base64_StdEncoding_DecodeString : string -> option (list byte);
  (** [crypto/aes]: the block cipher [aes.NewCipher(key)] returns, applied
      to one block. *)
  aes_Block_Encrypt : list byte -> list byte -> list byte;
  aes_Block_Decrypt : list byte -> list byte -> list byte;
  (** [hash.Hash] constructors, and [crypto/sha256.New]. *)
  HashFactory : Type;
  sha256_New : HashFactory;
  (** [crypto/hmac]: [h := hmac.New(hasher, key); h.Write(msg); h.Sum(nil)].
      [Write] of a [hash.Hash] never returns an error. *)
  hmac_Sum : HashFactory -> list byte -> list byte -> list byte;
  (** [crypto/rand]: [None] when [rand.Read] returns an error, else the
      bytes it fills a buffer with, by position. *)
  rand_Read : option (nat -> byte);
  (** [time]: [t.Format(time.RFC3339)] and [time.Parse(time.RFC3339, s)]. *)
  time_Format_RFC3339 : time.Time -> string;
  time_Parse_RFC3339 : string -> option time.Time;
  (** [pbkdf2.Key(password, salt, iter, keyLen, h)]; it has no error
      result; [None] when it panics (a negative [keyLen] is a slice bound). *)
  pbkdf2_Key : list byte -> list byte -> Z -> Z -> HashFactory -> option (list byte);
  (** [base62.DecodeToInt(encoded)]. *)
  base62_DecodeToInt : string -> Z
}.

(** The key sizes of AES-128, AES-192 and AES-256. *)
Definition aesKeySize (key : list byte) : Prop :=
  len key = 16 \/ len key = 24 \/ len key = 32.

Class GoStdlibSpec (go : GoStdlib) : Prop := {
  (** Decoding undoes encoding, and neither alphabet has the byte ['.']. *)
  RawURLEncoding_Decode_Encode : forall b,
    base64_RawURLEncoding_DecodeString (base64_RawURLEncoding_EncodeToString b) = Some b;
  RawURLEncoding_alphabet : forall b,
    strings.Contains (base64_RawURLEncoding_EncodeToString b) "." = false;
  StdEncoding_Decode_Encode : forall b,
    base64_StdEncoding_DecodeString (base64_StdEncoding_EncodeToString b) = Some b;
  StdEncoding_alphabet : forall b,
    strings.Contains (base64_StdEncoding_EncodeToString b) "." = false;
  (** Under a key of a valid size, AES maps a 16-byte block to a 16-byte
      block, and decryption undoes encryption. *)
  aes_Block_Encrypt_length : forall key src,
    aesKeySize key -> len src = 16 -> len (aes_Block_Encrypt key src) = 16;
  aes_Block_Decrypt_Encrypt : forall key src,
    aesKeySize key -> len src = 16 ->
    aes_Block_Decrypt key (aes_Block_Encrypt key src) = src;
  (** A formatted instant of the years 0000 to 9999 parses back to its
      whole second. *)
  time_Parse_Format : forall t,
    time.inRFC3339Range t ->
    time_Parse_RFC3339 (time_Format_RFC3339 t) = Some (time.truncateToSecond t);
  (** An RFC 3339 timestamp has at most one ['.'], before the digits of a
      fraction of a second and the zone: none ends in ['.'] and a whole
      formatted timestamp. *)
  time_Parse_dotted_tail : forall s t,
    time_Parse_RFC3339 (s ++ "." ++ time_Format_RFC3339 t) = None
}.

(** Package [crypto/aes]. *)
Module crypto_aes.

Definition BlockSize : Z := 16.

(** A [cipher.Block]. *)
Record Block : Type := {
  Encrypt : list byte -> list byte;
  Decrypt : list byte -> list byte
}.

Section WithGo.
Context {go : GoStdlib}.

(** [aes.NewCipher(key)]: an error for a key that is not 16, 24 or 32 bytes. *)
Definition NewCipher (key : list byte) : outcome Block :=
  let k := len key in
  if (k =? 16) || (k =? 24) || (k =? 32) then
    Value {| Encrypt := aes_Block_Encrypt key; Decrypt := aes_Block_Decrypt key |}
  else Error ("crypto/aes: invalid key size " ++ itoa k).

End WithGo.
End crypto_aes.

(** Package [crypto/cipher]: cipher block chaining over a [cipher.Block]. *)
Module crypto_cipher.

Definition xorByte (a b : byte) : byte :=
  let '(a0, (a1, (a2, (a3, (a4, (a5, (a6, a7))))))) := Byte.to_bits a in
  let '(b0, (b1, (b2, (b3, (b4, (b5, (b6, b7))))))) := Byte.to_bits b in
  Byte.of_bits
    (xorb a0 b0, (xorb a1 b1, (xorb a2 b2, (xorb a3 b3,
    (xorb a4 b4, (xorb a5 b5, (xorb a6 b6, xorb a7 b7))))))).

Definition xorBytes (a b : list byte) : list byte :=
  List.map (fun p => xorByte (fst p) (snd p)) (List.combine a b).

(** [n] blocks of [src], each xored with the previous ciphertext block
    (first with [iv]) and then encrypted. *)
Fixpoint encryptBlocks (b : crypto_aes.Block) (n : nat) (iv src : list byte)
  : list byte :=
  match n with
  | O => []
  | S n' =>
      let c := crypto_aes.Encrypt b (xorBytes (firstn 16 src) iv) in
      c ++ encryptBlocks b n' c (skipn 16 src)
  end.

(** [n] blocks of [src], each decrypted and then xored with the previous
    ciphertext block (first with [iv]). *)
Fixpoint decryptBlocks (b : crypto_aes.Block) (n : nat) (iv src : list byte)
  : list byte :=
  match n with
  | O => []
  | S n' =>
      let c := firstn 16 src in
      xorBytes (crypto_aes.Decrypt b c) iv ++ decryptBlocks b n' c (skipn 16 src)
  end.

(** [mode := cipher.NewCBCEncrypter(b, iv); dst := make([]byte, len(src));
    mode.CryptBlocks(dst, src)], returning [dst].  [NewCBCEncrypter] panics
    unless the IV is one block long, [CryptBlocks] unless the input is a
    whole number of blocks. *)
Definition CBCEncrypt (b : crypto_aes.Block) (iv src : list byte)
  : outcome (list byte) :=
  if negb (len iv =? crypto_aes.BlockSize) then Panic
  else if negb (Z.rem (len src) crypto_aes.BlockSize =? 0) then Panic
  else Value (encryptBlocks b (Z.to_nat (len src / crypto_aes.BlockSize)) iv src).

(** The same with [cipher.NewCBCDecrypter]. *)
Definition CBCDecrypt (b : crypto_aes.Block) (iv src : list byte)
  : outcome (list byte) :=
  if negb (len iv =? crypto_aes.BlockSize) then Panic
  else if negb (Z.rem (len src) crypto_aes.BlockSize =? 0) then Panic
  else Value (decryptBlocks b (Z.to_nat (len src / crypto_aes.BlockSize)) iv src).

End crypto_cipher.

(** ** Package [rng] *)
Module rng.
Section WithGo.
Context {go : GoStdlib}.

(** [GenerateBytes]: [make] panics on a negative length, and the function
    itself when [rand.Read] fails; else the buffer, filled. *)
Definition GenerateBytes (length : Z) : outcome (list byte) :=
  if length <? 0 then Panic
  else
    match rand_Read with
    | None => Panic
    | Some filled => Value (List.map filled (List.seq 0 (Z.to_nat length)))
    end.

End WithGo.
End rng.

(** ** Package [aes] *)
Module aes.
Section WithGo.
Context {go : GoStdlib}.

Definition Encrypt (key plain : list byte) : outcome (list byte) :=
  let keyLen := len key in
  if negb (keyLen =? 16) && negb (keyLen =? 24) && negb (keyLen =? 32) then
    Error ("encryption key must be either 16, 24 or 32 bytes long. Current key length: "
           ++ itoa keyLen)
  else
    try paddedPlain <- pkcs7.Pad plain crypto_aes.BlockSize
      or (fun err => ("error when padding message with PKCS7: " ++ err)%string) ;;
    let ivLen := crypto_aes.BlockSize in
    iv <- rng.GenerateBytes ivLen ;;
    try block <- crypto_aes.NewCipher key
      or (fun err => ("error when creating new cipher: " ++ err)%string) ;;
    encrypted <- crypto_cipher.CBCEncrypt block iv paddedPlain ;;
    (* result := make([]byte, ivLen+encryptedLen), the IV copied to its
       first ivLen bytes and the ciphertext behind it *)
    Value (iv ++ encrypted).

Definition Decrypt (key scrambled : list byte) : outcome (list byte) :=
  let keyLen := len key in
  if negb (keyLen =? 16) && negb (keyLen =? 24) && negb (keyLen =? 32) then
    Error "encryption key must be either 16, 24 or 32 bytes long"
  else
    let ivLen := crypto_aes.BlockSize in
    iv <- sliceTo scrambled ivLen ;;
    encryptedBytes <- sliceFrom scrambled ivLen ;;
    try block <- crypto_aes.NewCipher key
      or (fun err => ("error when creating new cipher: " ++ err)%string) ;;
    paddedPlain <- crypto_cipher.CBCDecrypt block iv encryptedBytes ;;
    try plain <- pkcs7.Unpad paddedPlain crypto_aes.BlockSize
      or (fun err => ("error when un-padding message with PKCS7: " ++ err)%string) ;;
    Value plain.

End WithGo.
End aes.

(** ** Package [sig] *)
Module sig.
Section WithGo.
Context {go : GoStdlib}.

(** [Compute]; its panic is on an error of [Write], which a [hash.Hash]
    never returns. *)
Definition Compute (hasher : HashFactory) (key msg : list byte) : list byte :=
  hmac_Sum hasher key msg.

Definition Validate (hasher : HashFactory) (key msg signature : list byte) : bool :=
  let actualSignature := Compute hasher key msg in
  compare.Hashes signature actualSignature.

Definition ComputeSHA256 (key msg : list byte) : list byte :=
  Compute sha256_New key msg.

Definition ValidateSHA256 (key msg signature : list byte) : bool :=
  Validate sha256_New key msg signature.

End WithGo.
End sig.

(** ** Package [token] *)
Module token.

(** The struct [Generator] (and its older form, the unexported [generator]
    behind an interface, whose [Generate] has the same body).  [now] is the
    reading of the clock [g.now()] at the call. *)
Module Generator.

Record t : Type := {
  now : time.Time;
  encryptionKey : list byte;
  signingKey : list byte
}.

Section WithGo.
Context {go : GoStdlib}.

Definition Generate (g : t) (kind : string) (data : list byte) (ttl : time.Duration)
  : outcome string :=
  (* 1. Generate expiry date *)
  let expiry := time.Add (time.UTC (now g)) ttl in
  (* 2. Concatenate the token parts *)
  let encodedData := base64_RawURLEncoding_EncodeToString data in
  let plainText := (kind ++ "." ++ encodedData ++ "." ++ time_Format_RFC3339 expiry)%string in
  (* 3. Encrypt the data *)
  try cipher <- aes.Encrypt (encryptionKey g) (list_byte_of_string plainText)
    or (fun err => ("could not generate token: " ++ err)%string) ;;
  (* 4. Compute a signature *)
  let signature := sig.ComputeSHA256 (signingKey g) cipher in
  (* 5. Concatenate signature and data into token *)
  let token := (base64_RawURLEncoding_EncodeToString signature ++ "."
                ++ base64_RawURLEncoding_EncodeToString cipher)%string in
  Value token.

End WithGo.

(** [NewGenerator]: a [nil] key is a panic; [now] stands for [time.Now], by
    the reading it gives when [Generate] is called.  (The older form also
    takes the clock, and panics on a [nil] one.) *)
Definition NewGenerator (now : time.Time) (encryptionKey signingKey : option (list byte))
  : outcome t :=
  match encryptionKey with
  | None => Panic (* encryptionKey cannot be nil. *)
  | Some encryptionKey =>
      match signingKey with
      | None => Panic (* signingKey cannot be nil. *)
      | Some signingKey =>
          Value {| now := now; encryptionKey := encryptionKey; signingKey := signingKey |}
      end
  end.

End Generator.

(** The unexported struct [validator], behind the interface [Validator]:
    one error for every rejection. *)
Module validator.

Record t : Type := {
  now : time.Time;
  encryptionKey : list byte;
  signingKey : list byte
}.

(** 0. Set default return values: the one error of [Validate]. *)
Definition errToken : string := "token is missing, invalid or has expired".

Section WithGo.
Context {go : GoStdlib}.

Definition Validate (v : t) (kind token : string) : outcome (list byte) :=
  (* 1. Check that the token is not empty *)
  if (token =? "")%string then Error errToken else
  (* 2. Decompose the token into signature and encrypted data *)
  let expectedTokenParams := 2 in
  let tokenParts := strings.SplitN token "." expectedTokenParams in
  if negb (len tokenParts =? expectedTokenParams) then Error errToken else
  (* 3. Base64 decode the signature and data *)
  match base64_RawURLEncoding_DecodeString (nth 0 tokenParts ""%string) with
  | None => Error errToken
  | Some signature =>
  match base64_RawURLEncoding_DecodeString (nth 1 tokenParts ""%string) with
  | None => Error errToken
  | Some cipher =>
  (* 4. Validate the signature before anything else *)
  if negb (sig.ValidateSHA256 (signingKey v) cipher signature) then Error errToken else
  (* 5. Decrypt the cipher message *)
  try plain <- aes.Decrypt (encryptionKey v) cipher or (fun _ => errToken) ;;
  (* 6. Message consists of three parts: kind, data and expiry date *)
  let expectedMsgParams := 3 in
  let msgParts := strings.SplitN (string_of_list_byte plain) "." expectedMsgParams in
  if negb (len msgParts =? expectedMsgParams) then Error errToken else
  (* 7. Is the received kind the expected kind?  ([err] is nil here.) *)
  let expectedKind := nth 0 msgParts ""%string in
  if negb (kind =? expectedKind)%string then Error errToken else
  (* 8. Validate the expiry of the token *)
  match time_Parse_RFC3339 (nth 2 msgParts ""%string) with
  | None => Error errToken
  | Some expiry =>
  if time.After (time.UTC (now v)) expiry then Error errToken else
  (* 9. Base64 decode data *)
  match base64_RawURLEncoding_DecodeString (nth 1 msgParts ""%string) with
  | None => Error errToken
  (* 10. Return validated result *)
  | Some data => Value data
  end end end end.

End WithGo.

(** [NewValidator], of the validator behind the interface: the clock and
    the keys must not be [nil]. *)
Definition NewValidator (now : option time.Time)
  (encryptionKey signingKey : option (list byte)) : outcome t :=
  match now with
  | None => Panic (* now function parameter cannot be nil. *)
  | Some now =>
      match encryptionKey with
      | None => Panic (* encryptionKey parameter cannot be nil. *)
      | Some encryptionKey =>
          match signingKey with
          | None => Panic (* signingKey parameter cannot be nil. *)
          | Some signingKey =>
              Value {| now := now; encryptionKey := encryptionKey;
                       signingKey := signingKey |}
          end
      end
  end.

End validator.

(** The exported struct [Validator]: the same checks, each with an error of
    its own. *)
Module Validator.

Record t : Type := {
  now : time.Time;
  encryptionKey : list byte;
  signingKey : list byte
}.

Section WithGo.
Context {go : GoStdlib}.

Definition Validate (v : t) (kind token : string) : outcome (list byte) :=
  (* 1. Check that the token is not empty *)
  if (token =? "")%string then Error "empty token" else
  (* 2. Decompose the token into signature and encrypted data *)
  let expectedTokenParams := 2 in
  let tokenParts := strings.SplitN token "." expectedTokenParams in
  if negb (len tokenParts =? expectedTokenParams) then
    Error "token must consist of two parts: signature and data" else
  (* 3. Base64 decode the signature and data *)
  match base64_RawURLEncoding_DecodeString (nth 0 tokenParts ""%string) with
  | None => Error "signature must be base64 encoded"
  | Some signature =>
  match base64_RawURLEncoding_DecodeString (nth 1 tokenParts ""%string) with
  | None => Error "data must be base64 encoded"
  | Some cipher =>
  (* 4. Validate the signature before anything else *)
  if negb (sig.ValidateSHA256 (signingKey v) cipher signature) then
    Error "signature does not match data" else
  (* 5. Decrypt the cipher message *)
  try plain <- aes.Decrypt (encryptionKey v) cipher
    or (fun _ => "failed to decrypt data"%string) ;;
  (* 6. Message consists of three parts: kind, data and expiry date *)
  let expectedMsgParams := 3 in
  let msgParts := strings.SplitN (string_of_list_byte plain) "." expectedMsgParams in
  if negb (len msgParts =? expectedMsgParams) then
    Error "decrypted message must consist of 3 parts: token kind, data and expiry date" else
  (* 7. Is the received kind the expected kind?  ([err] is nil here.) *)
  let expectedKind := nth 0 msgParts ""%string in
  if negb (kind =? expectedKind)%string then
    Error "token doesn't match expected kind" else
  (* 8. Validate the expiry of the token *)
  match time_Parse_RFC3339 (nth 2 msgParts ""%string) with
  | None => Error "token does not include a valid expiry date"
  | Some expiry =>
  if time.After (time.UTC (now v)) expiry then Error "token expired" else
  (* 9. Base64 decode data *)
  match base64_RawURLEncoding_DecodeString (nth 1 msgParts ""%string) with
  | None => Error "failed to base64 decode plaintext message"
  (* 10. Return validated result *)
  | Some data => Value data
  end end end end.

End WithGo.

(** [NewValidator], of the struct: the keys must not be [nil]; [now] stands
    for [time.Now]. *)
Definition NewValidator (now : time.Time) (encryptionKey signingKey : option (list byte))
  : outcome t :=
  match encryptionKey with
  | None => Panic (* encryptionKey parameter cannot be nil. *)
  | Some encryptionKey =>
      match signingKey with
      | None => Panic (* signingKey parameter cannot be nil. *)
      | Some signingKey =>
          Value {| now := now; encryptionKey := encryptionKey; signingKey := signingKey |}
      end
  end.

End Validator.

End token.

(** ** Package [pwd] *)
Module pwd.

(** The function types.  A function value can be [nil]: a field or a result
    of function type is an [option].  A hash function has no error result;
    its [outcome] is a value or a panic. *)
Definition saltFunc : Type := Z -> outcome (list byte).
Definition hashFunc : Type := list byte -> list byte -> outcome (list byte).
Definition hashFuncFactory : Type := string -> outcome (option hashFunc).

Record passwordHash : Type := {
  salt : list byte;
  hash : list byte;
  strategy : string;
  base64Salt : string;
  base64Hash : string
}.

(** A [*passwordHash] can be [nil]. *)
Definition parseHashFunc : Type := string -> outcome (option passwordHash).

(** The method [String] of [*passwordHash]. *)
Definition String (pwdh : passwordHash) : string :=
  (strategy pwdh ++ "." ++ base64Salt pwdh ++ "." ++ base64Hash pwdh)%string.

Definition defaultStrategy : string := "pbkdf2/hmacsha256/12/G8".

Section WithGo.
Context {go : GoStdlib}.

Definition createPbkdf2Fn (strategy : string) : outcome (option hashFunc) :=
  let errInvalidStrategy :=
    "invalid strategy, cannot create PBKDF2 hashing function"%string in
  let expectedArgs := 4 in
  let args := strings.SplitN strategy "/" expectedArgs in
  if negb (len args =? expectedArgs) then Error errInvalidStrategy else
  let hashFuncName := nth 1 args ""%string in
  let encHashLength := nth 2 args ""%string in
  let encIterations := nth 3 args ""%string in
  (* Currently only HMAC-SHA256 supported *)
  if negb (hashFuncName =? "hmacsha256")%string then Error errInvalidStrategy else
  let hashFunc := sha256_New in
  let hashLength := base62_DecodeToInt encHashLength in
  let iterations := base62_DecodeToInt encIterations in
  let computeHash := fun password salt =>
    match pbkdf2_Key password salt iterations hashLength hashFunc with
    | Some key => Value key
    | None => Panic
    end in
  Value (Some computeHash).

(** The map of supported strategies; it has one entry, so the order in
    which a [range] visits it does not matter. *)
Definition supportedStrategies : list (string * hashFuncFactory) :=
  [("pbkdf2"%string, createPbkdf2Fn)].

Definition createPasswordHashingStrategy (strategy : string)
  : outcome (option hashFunc) :=
  let errInvalidStrategy :=
    "invalid strategy, cannot create password hashing function"%string in
  if (strategy =? "")%string then Error errInvalidStrategy else
  (fix range (entries : list (string * hashFuncFactory)) : outcome (option hashFunc) :=
     match entries with
     | [] => Error errInvalidStrategy
     | (key, createHash) :: rest =>
         if strings.HasPrefix strategy key then createHash strategy
         else range rest
     end) supportedStrategies.

Definition parsePasswordHash (pwdh : string) : outcome (option passwordHash) :=
  let errInvalidPwdh := ("string is not a valid passwordHash: " ++ pwdh)%string in
  (* 3 parts are expected: strategy, salt, hash *)
  if (pwdh =? "")%string then Error errInvalidPwdh else
  let expectedParts := 3 in
  let actualParams := strings.Split pwdh "." in
  if negb (len actualParams =? expectedParts) then Error errInvalidPwdh else
  let strategy := nth 0 actualParams ""%string in
  let encSalt := nth 1 actualParams ""%string in
  let encHash := nth 2 actualParams ""%string in
  match base64_StdEncoding_DecodeString encSalt with
  | None => Error errInvalidPwdh
  | Some salt =>
  match base64_StdEncoding_DecodeString encHash with
  | None => Error errInvalidPwdh
  | Some hash =>
      Value (Some {| salt := salt; hash := hash; strategy := strategy;
                     base64Salt := encSalt; base64Hash := encHash |})
  end end.

End WithGo.

(** Hash generator. *)
Module Hasher.

Record t : Type := {
  generateSalt : option saltFunc;
  computeHash : option hashFunc;
  strategy : string
}.

Section WithGo.
Context {go : GoStdlib}.

Definition computePasswordHash (h : t) (password : string) : outcome passwordHash :=
  match generateSalt h with
  | None => Panic (* generateSalt cannot be nil *)
  | Some generateSalt =>
  match computeHash h with
  | None => Panic (* computeHash cannot be nil *)
  | Some computeHash =>
      salt <- generateSalt 32 ;;
      hash <- computeHash (list_byte_of_string password) salt ;;
      Value {| salt := salt; hash := hash; pwd.strategy := strategy h;
               base64Salt := base64_StdEncoding_EncodeToString salt;
               base64Hash := base64_StdEncoding_EncodeToString hash |}
  end end.

Definition ComputeHash (h : t) (password : string) : outcome string :=
  pwdh <- computePasswordHash h password ;;
  Value (String pwdh).

End WithGo.
End Hasher.

(** [newHasher]: a strategy the factory rejects is a panic.  (Calling a
    [nil] factory would be one too.) *)
Definition newHasher (generateSalt : option saltFunc)
  (computeHashFactory : option hashFuncFactory) (strategy : string)
  : outcome Hasher.t :=
  match computeHashFactory with
  | None => Panic
  | Some computeHashFactory =>
      match computeHashFactory strategy with
      | Value computeHash =>
          Value {| Hasher.generateSalt := generateSalt;
                   Hasher.computeHash := computeHash;
                   Hasher.strategy := strategy |}
      | Error _ => Panic (* failed to create a hash function *)
      | Panic => Panic
      end
  end.

(** Hash validator. *)
Module Validator.

Record t : Type := {
  parseHash : option parseHashFunc;
  computeHashFactory : option hashFuncFactory;
  defaultStrategy : string
}.

Definition validatePassword (v : t) (p : string) (pwdh : option passwordHash)
  : outcome (bool * bool) :=
  match computeHashFactory v with
  | None => Panic (* computeHashFactory cannot be nil *)
  | Some computeHashFactory =>
  (* Return early if nothing to compare *)
  if (p =? "")%string then Value (false, false) else
  match pwdh with
  | None => Value (false, false)
  | Some pwdh =>
  (* Get the hashing function *)
  match computeHashFactory (strategy pwdh) with
  | Error _ => Value (false, false)
  | Panic => Panic
  | Value None => Panic (* a call of a nil function *)
  | Value (Some computeHash) =>
      (* Compute the actual hash *)
      computedHash <- computeHash (list_byte_of_string p) (salt pwdh) ;;
      (* Set return values and finish *)
      let ok := compare.Hashes (hash pwdh) computedHash in
      let needsUpgrade := ok && negb (strategy pwdh =? defaultStrategy v)%string in
      Value (ok, needsUpgrade)
  end end end.

Definition ValidatePassword (v : t) (password passwordHash : string)
  : outcome (bool * bool) :=
  match parseHash v with
  | None => Panic (* parseHash cannot be nil *)
  | Some parseHash =>
      match parseHash passwordHash with
      | Error _ => Value (false, false)
      | Panic => Panic
      | Value pwdh => validatePassword v password pwdh
      end
  end.

End Validator.

Definition newValidator (parseHash : option parseHashFunc)
  (computeHashFactory : option hashFuncFactory) (defaultStrategy : string)
  : Validator.t :=
  {| Validator.parseHash := parseHash;
     Validator.computeHashFactory := computeHashFactory;
     Validator.defaultStrategy := defaultStrategy |}.

Section WithGo.
Context {go : GoStdlib}.

Definition NewHasher : outcome Hasher.t :=
  newHasher (Some rng.GenerateBytes) (Some createPasswordHashingStrategy)
    defaultStrategy.

Definition NewValidator : Validator.t :=
  newValidator (Some parsePasswordHash) (Some createPasswordHashingStrategy)
    defaultStrategy.

End WithGo.

End pwd.

(** ** Package [pwd], file [policy.go] *)

(** What [for _, r := range s] visits: the code points of [s] read as UTF-8,
    a byte that starts no valid encoding counting as [RuneError], alone. *)
Module utf8.

Definition RuneError : Z := 65533.

(** A byte in the range [lo..hi]. *)
Definition within (lo hi : Z) (b : byte) : bool :=
  (lo <=? intOfByte b) && (intOfByte b <=? hi).

(** The low six bits of a continuation byte. *)
Definition low6 (b : byte) : Z := Z.land (intOfByte b) 63.

Fixpoint decode (s : list byte) : list Z :=
  match s with
  | [] => []
  | s0 :: rest =>
      let b0 := intOfByte s0 in
      if b0 <? 128 then b0 :: decode rest
      else if (194 <=? b0) && (b0 <=? 223) then
        match rest with
        | s1 :: rest1 =>
            if within 128 191 s1 then
              Z.lor (Z.shiftl (Z.land b0 31) 6) (low6 s1) :: decode rest1
            else RuneError :: decode rest
        | _ => RuneError :: decode rest
        end
      else if (224 <=? b0) && (b0 <=? 239) then
        let lo := if b0 =? 224 then 160 else 128 in
        let hi := if b0 =? 237 then 159 else 191 in
        match rest with
        | s1 :: s2 :: rest2 =>
            if within lo hi s1 && within 128 191 s2 then
              Z.lor (Z.shiftl (Z.land b0 15) 12)
                (Z.lor (Z.shiftl (low6 s1) 6) (low6 s2)) :: decode rest2
            else RuneError :: decode rest
        | _ => RuneError :: decode rest
        end
      else if (240 <=? b0) && (b0 <=? 244) then
        let lo := if b0 =? 240 then 144 else 128 in
        let hi := if b0 =? 244 then 143 else 191 in
        match rest with
        | s1 :: s2 :: s3 :: rest3 =>
            if within lo hi s1 && within 128 191 s2 && within 128 191 s3 then
              Z.lor (Z.shiftl (Z.land b0 7) 18)
                (Z.lor (Z.shiftl (low6 s1) 12)
                   (Z.lor (Z.shiftl (low6 s2) 6) (low6 s3))) :: decode rest3
            else RuneError :: decode rest
        | _ => RuneError :: decode rest
        end
      else RuneError :: decode rest
  end.

Definition rangeString (s : string) : list Z := decode (list_byte_of_string s).

End utf8.

(** Package [unicode], by its three predicates on code points. *)
Class GoUnicode : Type := {
  unicode_IsUpper : Z -> bool;
  unicode_IsLower : Z -> bool;
  unicode_IsDigit : Z -> bool
}.

Module pwd_policy.

Definition PolicyFunc : Type := string -> bool * list string.
Definition matchFunc : Type := Z -> bool.
Definition validateFunc : Type := string -> bool * string.

Definition genericValidateFunc (match_ : matchFunc) (minCount : Z) (group : string)
  : validateFunc :=
  fun password =>
    let count :=
      fold_left (fun (count : Z) (r : Z) => if match_ r then count + 1 else count)
        (utf8.rangeString password) 0 in
    if count <? minCount then
      (false, ("password must have at least " ++ itoa minCount ++ " " ++ group)%string)
    else (true, ""%string).

Section WithUnicode.
Context {unicode : GoUnicode}.

Definition UpperCaseCheck (minCount : Z) : validateFunc :=
  let group := "uppercase letter"%string in
  let group := if 1 <? minCount then (group ++ "s")%string else group in
  genericValidateFunc unicode_IsUpper minCount group.

Definition LowerCaseCheck (minCount : Z) : validateFunc :=
  let group := "lowercase letter"%string in
  let group := if 1 <? minCount then (group ++ "s")%string else group in
  genericValidateFunc unicode_IsLower minCount group.

Definition DigitsCheck (minCount : Z) : validateFunc :=
  let group := "digit"%string in
  let group := if 1 <? minCount then (group ++ "s")%string else group in
  genericValidateFunc unicode_IsDigit minCount group.

End WithUnicode.

(** The special characters; the character after [;] is the double quote. *)
Definition special : string :=
  ("!@£$%^&*()_-+={}[]€#:;" ++ String "034" "'|\?/<>,.~`§±")%string.

Definition SpecialCharCheck (minCount : Z) : validateFunc :=
  let check := fun r : Z => existsb (fun c => r =? c) (utf8.rangeString special) in
  let group := "special character"%string in
  let group := if 1 <? minCount then (group ++ "s")%string else group in
  genericValidateFunc check minCount group.

(** [len(password)] is a number of bytes. *)
Definition LengthCheck (minLength : Z) : validateFunc :=
  fun password =>
    if strlen password <? minLength then
      (false, ("password does not meet the minimum length of " ++ itoa minLength
               ++ " characters")%string)
    else (true, ""%string).

Definition Policy (funcs : list validateFunc) : PolicyFunc :=
  fun password =>
    let errMsgs :=
      fold_left
        (fun (errMsgs : list string) (f : validateFunc) =>
           let (ok, errMsg) := f password in
           if negb ok then errMsgs ++ [errMsg] else errMsgs)
        funcs [] in
    (len errMsgs =? 0, errMsgs).

Section WithUnicode.
Context {unicode : GoUnicode}.

Definition DefaultPolicy : PolicyFunc :=
  Policy [LengthCheck 8; UpperCaseCheck 1; LowerCaseCheck 1; DigitsCheck 1;
          SpecialCharCheck 1].

End WithUnicode.

End pwd_policy.

(** ** Vocabulary of the properties *)

(** A block cipher on 16-byte blocks whose decryption undoes encryption. *)
Definition blockCipher (b : crypto_aes.Block) : Prop :=
  forall src, List.length src = 16%nat ->
    List.length (crypto_aes.Encrypt b src) = 16%nat
    /\ crypto_aes.Decrypt b (crypto_aes.Encrypt b src) = src.

(** The record [Generate] encrypts (its [plainText]), for a clock reading
    [now]. *)
Definition plainText {go : GoStdlib} (now : time.Time) (kind : string)
  (data : list byte) (ttl : time.Duration) : string :=
  (kind ++ "." ++ base64_RawURLEncoding_EncodeToString data ++ "."
   ++ time_Format_RFC3339 (time.Add (time.UTC now) ttl))%string.

(** ** An instance of the libraries

    Small stand-ins for the library functions, on which the packages can be
    run: hexadecimal for the two base64 encodings, a block cipher that xors
    a block with the head of the key, a rolling checksum for HMAC-SHA256
    and for PBKDF2, and an instant written as its whole seconds since the
    epoch, in decimal. *)
Module toy.

Definition hexDigit (n : N) : ascii :=
  if (n <? 10)%N then ascii_of_N (48 + n) else ascii_of_N (87 + n).

Definition hexValue (c : ascii) : option N :=
  let n := N_of_ascii c in
  if (48 <=? n)%N && (n <=? 57)%N then Some (n - 48)%N
  else if (97 <=? n)%N && (n <=? 102)%N then Some (n - 87)%N
  else None.

Fixpoint EncodeToString (b : list byte) : string :=
  match b with
  | [] => EmptyString
  | x :: rest =>
      let n := Byte.to_N x in
      String (hexDigit (n / 16)) (String (hexDigit (n mod 16)) (EncodeToString rest))
  end.

Fixpoint DecodeString (s : string) : option (list byte) :=
  match s with
  | EmptyString => Some []
  | String hi (String lo rest) =>
      match hexValue hi, hexValue lo, DecodeString rest with
      | Some h, Some l, Some b =>
          match Byte.of_N (16 * h + l) with
          | Some x => Some (x :: b)
          | None => None
          end
      | _, _, _ => None
      end
  | String _ EmptyString => None
  end.

Definition Block_Encrypt (key src : list byte) : list byte :=
  crypto_cipher.xorBytes src (firstn 16 key).

Definition checksumStep (state : list byte) (b : byte) : list byte :=
  match state with
  | [] => []
  | x :: rest =>
      List.map (fun y => byteOfInt (intOfByte y + intOfByte b)) rest
      ++ [byteOfInt (3 * intOfByte x + intOfByte b + 1)]
  end.

Definition checksum (key msg : list byte) : list byte :=
  fold_left checksumStep (key ++ msg ++ [byteOfInt (len msg)]) (List.repeat x00 32).

Definition Format_RFC3339 (t : time.Time) : string :=
  NilZero.string_of_int (Z.to_int (t / time.Second)).

Definition Parse_RFC3339 (s : string) : option time.Time :=
  if strings.Contains s "." then None
  else
    match NilZero.int_of_string s with
    | Some d => Some (Z.of_int d * time.Second)
    | None => None
    end.

Definition Key (password salt : list byte) (iter keyLen : Z) (h : unit)
  : option (list byte) :=
  if keyLen <? 0 then None
  else
    let block := checksum password (salt ++ [byteOfInt iter]) in
    Some (firstn (Z.to_nat keyLen)
            (List.concat (List.repeat block (Z.to_nat (keyLen / 32 + 1))))).

Definition base62Digit (c : ascii) : Z :=
  let n := Z.of_N (N_of_ascii c) in
  if (48 <=? n) && (n <=? 57) then n - 48
  else if (65 <=? n) && (n <=? 90) then n - 55
  else if (97 <=? n) && (n <=? 122) then n - 61
  else 0.

Definition DecodeToInt (encoded : string) : Z :=
  fold_left (fun acc c => acc * 62 + base62Digit c) (list_ascii_of_string encoded) 0.

Definition go : GoStdlib := {|
  base64_RawURLEncoding_EncodeToString := EncodeToString;
  base64_RawURLEncoding_DecodeString := DecodeString;
  base64_StdEncoding_EncodeToString := EncodeToString;
  base64_StdEncoding_DecodeString := DecodeString;
  aes_Block_Encrypt := Block_Encrypt;
  aes_Block_Decrypt := Block_Encrypt;
  HashFactory := unit;
  sha256_New := tt;
  hmac_Sum := fun _ => checksum;
  rand_Read := Some (fun i => byteOfInt (37 * Z.of_nat i + 11));
  time_Format_RFC3339 := Format_RFC3339;
  time_Parse_RFC3339 := Parse_RFC3339;
  pbkdf2_Key := Key;
  base62_DecodeToInt := DecodeToInt
|}.

(** Keys, a clock and a token to run the packages on. *)
Definition key16 : list byte :=
  [x00; x01; x02; x03; x04; x05; x06; x07; x08; x09; x0a; x0b; x0c; x0d; x0e; x0f].
Definition signKey : list byte := list_byte_of_string "some-stupid-secret-key".

(** 2026-01-01T00:00:00.5Z, and a time to live of thirty minutes. *)
Definition clock : time.Time := 1767225600500000000.
Definition ttl : time.Duration := 1800 * time.Second.

Definition generator : token.Generator.t :=
  {| token.Generator.now := clock;
     token.Generator.encryptionKey := key16;
     token.Generator.signingKey := signKey |}.

Definition validatorAt (now : time.Time) : token.validator.t :=
  {| token.validator.now := now;
     token.validator.encryptionKey := key16;
     token.validator.signingKey := signKey |}.


(** The token generated for kind ["1"] and payload ["bla"], and a forged
    one: a valid signature over a cipher text of three bytes. *)
Definition payload : list byte := list_byte_of_string "bla".

Definition tok : string :=
  Eval vm_compute in
    match token.Generator.Generate (go := go) generator "1" payload ttl with
    | Value t => t
    | _ => EmptyString
    end.

Definition shortCipher : list byte := [x01; x02; x03].

Definition shortTok : string :=
  Eval vm_compute in
    (EncodeToString (sig.ComputeSHA256 (go := go) signKey shortCipher) ++ "."
     ++ EncodeToString shortCipher)%string.

(** Hashers of the default strategy, of an older one and of one with a
    ['.'] in it, and stored hashes they compute. *)
Definition oldStrategy : string := "pbkdf2/hmacsha256/A/9".

Definition hasherOf (strategy : string) : outcome pwd.Hasher.t :=
  pwd.newHasher (Some (rng.GenerateBytes (go := go)))
    (Some (pwd.createPasswordHashingStrategy (go := go))) strategy.


Definition storedBy (strategy password : string) : outcome string :=
  h <- hasherOf strategy ;; pwd.Hasher.ComputeHash (go := go) h password.

Definition storedOld : string :=
  Eval vm_compute in
    match storedBy oldStrategy "Just4Now" with
    | Value stored => stored
    | _ => EmptyString
    end.


End toy.


(** More to run the packages on: the libraries of [toy.go] with an
    entropy source that fails, and keys of other lengths. *)
Module sample.


(** What [toy.go]'s entropy source fills a buffer with. *)
Definition filled (i : nat) : byte := byteOfInt (37 * Z.of_nat i + 11).

Definition key5 : list byte := [x01; x02; x03; x04; x05].

Definition plain : list byte := list_byte_of_string "The world is flat".

(** The token [toy.generator] makes for the kind ["a.b"]. *)
Definition tokDotted : string :=
  Eval vm_compute in
    match token.Generator.Generate (go := toy.go) toy.generator "a.b" toy.payload toy.ttl with
    | Value t => t
    | _ => EmptyString
    end.

(** [unicode] on the ASCII letters and digits, and no others. *)
Definition unicode : GoUnicode := {|
  unicode_IsUpper := fun r => (65 <=? r) && (r <=? 90);
  unicode_IsLower := fun r => (97 <=? r) && (r <=? 122);
  unicode_IsDigit := fun r => (48 <=? r) && (r <=? 57)
|}.

End sample.

(** * Properties *)

(** The two tests of package [compare]. *)
Example Test_Compare_WithEqualHashes_ReturnsTrue :
  compare.Hashes (List.map byteOfInt [1; 2; 3; 4; 5; 6; 22; 66; 128])
    (List.map byteOfInt [1; 2; 3; 4; 5; 6; 22; 66; 128]) = true.
Proof. reflexivity. Qed.

Example Test_Compare_WithUnequalHashes_ReturnsFalse :
  compare.Hashes (List.map byteOfInt [9; 9; 9; 9; 3; 6; 22; 66; 128])
    (List.map byteOfInt [1; 2; 3; 4; 5; 6; 22; 66; 128]) = false.
Proof. reflexivity. Qed.

(** ** Bytes, slices and lengths *)

Lemma len_app {A : Type} (a b : list A) : len (a ++ b) = len a + len b.
Proof. unfold len. rewrite length_app. lia. Qed.

Lemma len_repeat {A : Type} (x : A) (n : nat) : len (List.repeat x n) = Z.of_nat n.
Proof. unfold len. now rewrite repeat_length. Qed.

Lemma len_nonneg {A : Type} (s : list A) : 0 <= len s.
Proof. unfold len. lia. Qed.

Lemma intOfByte_range (b : byte) : 0 <= intOfByte b <= 255.
Proof.
  unfold intOfByte. pose proof (Byte.to_N_bounded b). lia.
Qed.

Lemma intOfByte_byteOfInt (k : Z) : 0 <= k <= 255 -> intOfByte (byteOfInt k) = k.
Proof.
  intros Hk. unfold intOfByte, byteOfInt.
  rewrite Z.mod_small by lia.
  destruct (Byte.of_N (Z.to_N k)) as [b|] eqn:E.
  - apply Byte.to_of_N in E. rewrite E. lia.
  - apply Byte.of_N_None_iff in E. lia.
Qed.

Lemma byteOfInt_intOfByte (b : byte) : byteOfInt (intOfByte b) = b.
Proof.
  unfold intOfByte, byteOfInt. pose proof (Byte.to_N_bounded b).
  rewrite Z.mod_small by lia. rewrite N2Z.id. now rewrite Byte.of_to_N.
Qed.

Lemma byte_eqb_refl (b : byte) : Byte.eqb b b = true.
Proof. now apply Byte.byte_dec_lb. Qed.

Lemma concat_repeat_singleton {A : Type} (x : A) (n : nat) :
  List.concat (List.repeat [x] n) = List.repeat x n.
Proof. induction n as [|n IH]; simpl; [reflexivity | now rewrite IH]. Qed.

Lemma last_app_repeat {A : Type} (a : list A) (x d : A) (n : nat) :
  List.last (a ++ List.repeat x (S n)) d = x.
Proof.
  replace (List.repeat x (S n)) with (List.repeat x n ++ [x]).
  - rewrite app_assoc. apply last_last.
  - change [x] with (List.repeat x 1). rewrite <- repeat_app.
    f_equal. lia.
Qed.

Lemma skipn_len_app {A : Type} (a b : list A) : skipn (Z.to_nat (len a)) (a ++ b) = b.
Proof.
  unfold len. rewrite Nat2Z.id, skipn_app, skipn_all, Nat.sub_diag. reflexivity.
Qed.

Lemma firstn_len_app {A : Type} (a b : list A) : firstn (Z.to_nat (len a)) (a ++ b) = a.
Proof.
  unfold len. rewrite Nat2Z.id, firstn_app, firstn_all, Nat.sub_diag.
  simpl. apply app_nil_r.
Qed.

Lemma sliceFrom_app {A : Type} (a b : list A) : sliceFrom (a ++ b) (len a) = Value b.
Proof.
  unfold sliceFrom. rewrite len_app.
  pose proof (len_nonneg a). pose proof (len_nonneg b).
  destruct (Z.ltb_spec (len a) 0); [lia|].
  destruct (Z.ltb_spec (len a + len b) (len a)); [lia|].
  simpl. now rewrite skipn_len_app.
Qed.

Lemma sliceTo_app {A : Type} (a b : list A) : sliceTo (a ++ b) (len a) = Value a.
Proof.
  unfold sliceTo. rewrite len_app.
  pose proof (len_nonneg a). pose proof (len_nonneg b).
  destruct (Z.ltb_spec (len a) 0); [lia|].
  destruct (Z.ltb_spec (len a + len b) (len a)); [lia|].
  simpl. now rewrite firstn_len_app.
Qed.

Lemma sliceFrom_app_len {A : Type} (a b : list A) (n : Z) :
  len a = n -> sliceFrom (a ++ b) n = Value b.
Proof. intros <-. apply sliceFrom_app. Qed.

Lemma sliceTo_app_len {A : Type} (a b : list A) (n : Z) :
  len a = n -> sliceTo (a ++ b) n = Value a.
Proof. intros <-. apply sliceTo_app. Qed.

Lemma existsb_repeat_false {A : Type} (f : A -> bool) (x : A) (n : nat) :
  f x = false -> existsb f (List.repeat x n) = false.
Proof.
  intros Hx. induction n as [|n IH]; simpl; [reflexivity|].
  now rewrite Hx, IH.
Qed.

(** ** [compare.Hashes] decides equality *)

Lemma Hashes_fold_false (l : list (byte * byte)) :
  fold_left (fun (equal : bool) (p : byte * byte) => equal && Byte.eqb (fst p) (snd p))
    l false = false.
Proof. induction l as [|p l IH]; simpl; auto. Qed.

Lemma Hashes_fold_true (hash1 hash2 : list byte) :
  List.length hash1 = List.length hash2 ->
  fold_left (fun (equal : bool) (p : byte * byte) => equal && Byte.eqb (fst p) (snd p))
    (List.combine hash1 hash2) true = true ->
  hash1 = hash2.
Proof.
  revert hash2. induction hash1 as [|x xs IH]; intros [|y ys] Hlen H;
    try discriminate Hlen; [reflexivity|].
  simpl in H, Hlen. destruct (Byte.eqb x y) eqn:Exy.
  - apply Byte.byte_dec_bl in Exy. subst y. f_equal. apply IH; [lia | exact H].
  - rewrite Hashes_fold_false in H. discriminate.
Qed.

Lemma Hashes_true_iff (hash1 hash2 : list byte) :
  compare.Hashes hash1 hash2 = true <-> hash1 = hash2.
Proof.
  unfold compare.Hashes. split.
  - destruct (Z.eqb_spec (len hash1) (len hash2)) as [E|E]; simpl; [|discriminate].
    apply Hashes_fold_true. unfold len in E. lia.
  - intros <-. rewrite Z.eqb_refl. simpl.
    generalize true.
    induction hash1 as [|x xs IH]; simpl; intros b; [reflexivity|].
    rewrite byte_eqb_refl, andb_true_r. apply IH.
Qed.

Lemma Hashes_refl (h : list byte) : compare.Hashes h h = true.
Proof. now apply Hashes_true_iff. Qed.

(** ** PKCS7 *)

Lemma Pad_value (data : list byte) (blockSize : Z) :
  1 <= blockSize ->
  pkcs7.Pad data blockSize
  = Value (data ++ List.repeat (byteOfInt (blockSize - len data mod blockSize))
                     (Z.to_nat (blockSize - len data mod blockSize))).
Proof.
  intros Hn. unfold pkcs7.Pad.
  destruct (Z.ltb_spec blockSize 1); [lia|].
  pose proof (len_nonneg data).
  rewrite Z.rem_mod_nonneg by lia.
  pose proof (Z.mod_pos_bound (len data) blockSize ltac:(lia)).
  destruct (Z.eqb_spec (blockSize - len data mod blockSize) 0); [lia|].
  unfold bytes.Repeat.
  destruct (Z.ltb_spec (blockSize - len data mod blockSize) 0); [lia|].
  simpl. now rewrite concat_repeat_singleton.
Qed.

Lemma Unpad_padded (data : list byte) (blockSize padLen : Z) :
  1 <= blockSize -> 1 <= padLen <= 255 ->
  (len data + padLen) mod blockSize = 0 ->
  pkcs7.Unpad (data ++ List.repeat (byteOfInt padLen) (Z.to_nat padLen)) blockSize
  = Value data.
Proof.
  intros Hn Hk Hmod. unfold pkcs7.Unpad.
  pose proof (len_nonneg data).
  destruct (Z.ltb_spec blockSize 1); [lia|].
  rewrite len_app, len_repeat, Z2Nat.id by lia.
  rewrite Z.rem_mod_nonneg, Hmod by lia.
  destruct (Z.eqb_spec (len data + padLen) 0); [lia|]. simpl.
  destruct (Z.to_nat padLen) as [|k] eqn:Ek; [lia|].
  rewrite last_app_repeat, intOfByte_byteOfInt by lia.
  replace (len data + padLen - padLen) with (len data) by lia.
  rewrite sliceFrom_app. cbn [bind].
  rewrite existsb_repeat_false by now rewrite byte_eqb_refl.
  apply sliceTo_app.
Qed.




(** C8: what [Unpad] does with a final byte that declares no padding
    length of [1..blockSize].  A final byte 0 is accepted and strips
    nothing; a final byte above the block size is accepted when that many
    equal bytes end the data; one above the length of the data panics. *)
Lemma pkcs7_Unpad_undeclared_lengths :
  pkcs7.Unpad (List.repeat x00 16) 16 = Value (List.repeat x00 16)
  /\ pkcs7.Unpad [x03; x03; x03; x03] 2 = Value [x03]
  /\ pkcs7.Unpad (List.repeat xff 16) 16 = Panic.
Proof. repeat split; vm_compute; reflexivity. Qed.

(** ** Cutting and splitting strings *)

Lemma append_assoc (a b c : string) : ((a ++ b) ++ c = a ++ (b ++ c))%string.
Proof. induction a as [|x a IH]; simpl; [reflexivity | now rewrite IH]. Qed.

Lemma append_length (a b : string) :
  String.length (a ++ b) = (String.length a + String.length b)%nat.
Proof. induction a as [|x a IH]; simpl; [reflexivity | now rewrite IH]. Qed.

Lemma Contains_false_Cut (s : string) (sep : ascii) :
  strings.Contains s sep = false <-> strings.Cut s sep = None.
Proof.
  unfold strings.Contains. destruct (strings.Cut s sep); split; congruence.
Qed.

(** The first separator of [a ++ sep ++ b] is the one written, when [a] has
    none. *)
Lemma Cut_join (a b : string) (sep : ascii) :
  strings.Contains a sep = false ->
  strings.Cut (a ++ String sep b) sep = Some (a, b).
Proof.
  rewrite Contains_false_Cut.
  induction a as [|x a IH]; simpl; intros H.
  - now rewrite Ascii.eqb_refl.
  - destruct (Ascii.eqb x sep); [discriminate|].
    destruct (strings.Cut a sep) as [[before after]|]; [discriminate|].
    now rewrite IH.
Qed.

(** A separator found in [a] is found in [a ++ rest], at the same place. *)
Lemma Cut_app (a rest before after : string) (sep : ascii) :
  strings.Cut a sep = Some (before, after) ->
  strings.Cut (a ++ rest) sep = Some (before, (after ++ rest)%string).
Proof.
  revert before. induction a as [|x a IH]; simpl; intros before H; [discriminate|].
  destruct (Ascii.eqb x sep).
  - now injection H as <- <-.
  - destruct (strings.Cut a sep) as [[b' a']|]; [|discriminate].
    injection H as <- <-. now rewrite (IH b' eq_refl).
Qed.

Lemma SplitN_2_join (a b : string) :
  strings.Contains a "." = false ->
  strings.SplitN (a ++ "." ++ b) "." 2 = [a; b].
Proof.
  intros Ha. unfold strings.SplitN. simpl.
  now rewrite (Cut_join a b "." Ha).
Qed.

Lemma SplitN_3_join (a b c : string) :
  strings.Contains a "." = false -> strings.Contains b "." = false ->
  strings.SplitN (a ++ "." ++ b ++ "." ++ c) "." 3 = [a; b; c].
Proof.
  intros Ha Hb. unfold strings.SplitN. simpl.
  rewrite (Cut_join a _ "." Ha). now rewrite (Cut_join b c "." Hb).
Qed.

(** With two cuts or more allowed, three pieces without a separator are
    found again. *)
Lemma splitLoop_3_join (n : nat) (a b c : string) (sep : ascii) :
  strings.Contains a sep = false -> strings.Contains b sep = false ->
  strings.Contains c sep = false ->
  strings.splitLoop (S (S n)) (a ++ String sep (b ++ String sep c)) sep = [a; b; c].
Proof.
  intros Ha Hb Hc. simpl.
  rewrite (Cut_join a _ sep Ha), (Cut_join b c sep Hb).
  apply Contains_false_Cut in Hc.
  destruct n as [|n]; simpl; [reflexivity | now rewrite Hc].
Qed.

Lemma Split_3_join (a b c : string) :
  strings.Contains a "." = false -> strings.Contains b "." = false ->
  strings.Contains c "." = false ->
  strings.Split (a ++ "." ++ b ++ "." ++ c) "." = [a; b; c].
Proof.
  intros Ha Hb Hc. unfold strings.Split, strings.SplitN. simpl Z.eqb. simpl Z.ltb.
  cbv iota.
  rewrite append_length. simpl String.length. rewrite append_length. simpl String.length.
  replace (String.length a + S (String.length b + S (String.length c)))%nat
    with (S (S (String.length a + String.length b + String.length c))) by lia.
  now apply splitLoop_3_join.
Qed.

(** A kind with a ['.'] in it: the three pieces of the plain text are the
    kind up to its first ['.'], some second piece, and a third that still
    ends in ['.'] and the expiry. *)
Lemma SplitN_3_dotted_kind (kind first rest encoded expiry : string) :
  strings.Cut kind "." = Some (first, rest) ->
  exists second third,
    strings.SplitN (kind ++ "." ++ encoded ++ "." ++ expiry) "." 3
    = [first; second; (third ++ "." ++ expiry)%string].
Proof.
  intros Hcut. unfold strings.SplitN. simpl Z.eqb. simpl Z.ltb. cbv iota.
  change (Z.to_nat (3 - 1)) with 2%nat. cbn [strings.splitLoop].
  rewrite (Cut_app kind _ first rest "." Hcut).
  destruct (strings.Cut rest ".") as [[second rest']|] eqn:Hrest.
  - rewrite (Cut_app rest _ second rest' "." Hrest).
    exists second, (rest' ++ "." ++ encoded)%string.
    now rewrite append_assoc.
  - apply Contains_false_Cut in Hrest.
    change ("." ++ encoded ++ "." ++ expiry)%string
      with (String "." (encoded ++ "." ++ expiry)%string).
    rewrite (Cut_join rest _ "." Hrest).
    now exists rest, encoded.
Qed.

(** ** Cipher block chaining *)

Lemma xorByte_involutive (a b : byte) :
  crypto_cipher.xorByte (crypto_cipher.xorByte a b) b = a.
Proof.
  rewrite <- (Byte.of_bits_to_bits a) at 2.
  unfold crypto_cipher.xorByte.
  destruct (Byte.to_bits a) as (a0 & a1 & a2 & a3 & a4 & a5 & a6 & a7).
  destruct (Byte.to_bits b) as (b0 & b1 & b2 & b3 & b4 & b5 & b6 & b7).
  rewrite Byte.to_bits_of_bits.
  now rewrite !xorb_assoc, !xorb_nilpotent, !xorb_false_r.
Qed.

Lemma xorBytes_length (a b : list byte) :
  List.length a = List.length b ->
  List.length (crypto_cipher.xorBytes a b) = List.length a.
Proof.
  intros H. unfold crypto_cipher.xorBytes.
  rewrite length_map, length_combine. lia.
Qed.

Lemma xorBytes_involutive (a b : list byte) :
  List.length a = List.length b ->
  crypto_cipher.xorBytes (crypto_cipher.xorBytes a b) b = a.
Proof.
  unfold crypto_cipher.xorBytes.
  revert b. induction a as [|x a IH]; intros [|y b] H; try discriminate H;
    [reflexivity|].
  simpl. rewrite xorByte_involutive. f_equal. apply IH. simpl in H. lia.
Qed.

Lemma encryptBlocks_length (b : crypto_aes.Block) (n : nat) :
  blockCipher b ->
  forall iv src, List.length iv = 16%nat -> List.length src = (16 * n)%nat ->
    List.length (crypto_cipher.encryptBlocks b n iv src) = (16 * n)%nat.
Proof.
  intros Hb. induction n as [|n IH]; intros iv src Hiv Hsrc; [reflexivity|].
  cbn [crypto_cipher.encryptBlocks].
  assert (Hx : List.length (crypto_cipher.xorBytes (firstn 16 src) iv) = 16%nat).
  { rewrite xorBytes_length; rewrite length_firstn; lia. }
  destruct (Hb _ Hx) as [Hc _].
  rewrite length_app, Hc, IH; [lia | exact Hc | rewrite length_skipn; lia].
Qed.

Lemma decryptBlocks_encryptBlocks (b : crypto_aes.Block) (n : nat) :
  blockCipher b ->
  forall iv src, List.length iv = 16%nat -> List.length src = (16 * n)%nat ->
    crypto_cipher.decryptBlocks b n iv (crypto_cipher.encryptBlocks b n iv src) = src.
Proof.
  intros Hb. induction n as [|n IH]; intros iv src Hiv Hsrc.
  - destruct src; [reflexivity | discriminate].
  - cbn [crypto_cipher.encryptBlocks crypto_cipher.decryptBlocks].
    assert (Hf : List.length (firstn 16 src) = 16%nat) by (rewrite length_firstn; lia).
    assert (Hx : List.length (crypto_cipher.xorBytes (firstn 16 src) iv) = 16%nat).
    { rewrite xorBytes_length; lia. }
    destruct (Hb _ Hx) as [Hc Hd].
    set (c := crypto_aes.Encrypt b (crypto_cipher.xorBytes (firstn 16 src) iv)) in *.
    rewrite firstn_app, (firstn_all2 (n := 16) c) by lia.
    rewrite skipn_app, (skipn_all2 (n := 16) c) by lia.
    rewrite Hc, Nat.sub_diag, firstn_O, skipn_O, app_nil_r, app_nil_l.
    rewrite Hd, xorBytes_involutive by lia.
    rewrite IH; [apply firstn_skipn | exact Hc | rewrite length_skipn; lia].
Qed.

(** ** [aes.Decrypt] undoes [aes.Encrypt] *)

Section Aes.
Context {go : GoStdlib} {spec : GoStdlibSpec go}.

Lemma aesKeySize_check (key : list byte) :
  aesKeySize key ->
  negb (len key =? 16) && negb (len key =? 24) && negb (len key =? 32) = false.
Proof.
  intros [H|[H|H]]; rewrite H; reflexivity.
Qed.

Lemma aesKeySize_check_false (key : list byte) :
  negb (len key =? 16) && negb (len key =? 24) && negb (len key =? 32) = false ->
  aesKeySize key.
Proof.
  unfold aesKeySize.
  destruct (Z.eqb_spec (len key) 16); [auto|].
  destruct (Z.eqb_spec (len key) 24); [auto|].
  destruct (Z.eqb_spec (len key) 32); [auto|discriminate].
Qed.

Lemma NewCipher_value (key : list byte) :
  aesKeySize key ->
  exists block, crypto_aes.NewCipher key = Value block /\ blockCipher block.
Proof.
  intros Hkey. unfold crypto_aes.NewCipher.
  assert (E : (len key =? 16) || (len key =? 24) || (len key =? 32) = true).
  { destruct Hkey as [H|[H|H]]; rewrite H; reflexivity. }
  rewrite E. eexists. split; [reflexivity|].
  intros src Hsrc. simpl.
  assert (Hlen : len src = 16) by (unfold len; lia).
  split.
  - pose proof (aes_Block_Encrypt_length key src Hkey Hlen) as H. unfold len in H. lia.
  - now apply aes_Block_Decrypt_Encrypt.
Qed.

Lemma GenerateBytes_value (filled : nat -> byte) (length : Z) :
  rand_Read = Some filled -> 0 <= length ->
  exists b, rng.GenerateBytes length = Value b /\ len b = length.
Proof.
  intros Hr Hl. unfold rng.GenerateBytes. rewrite Hr.
  destruct (Z.ltb_spec length 0); [lia|].
  eexists. split; [reflexivity|].
  unfold len. rewrite length_map, length_seq. lia.
Qed.

(** [Encrypt] returns when the key has a valid size and the entropy source
    answers. *)
Lemma Encrypt_value (key plain : list byte) (filled : nat -> byte) :
  aesKeySize key -> rand_Read = Some filled ->
  exists cipher, aes.Encrypt key plain = Value cipher.
Proof.
  intros Hkey Hr. unfold aes.Encrypt.
  rewrite (aesKeySize_check key Hkey).
  rewrite Pad_value by (unfold crypto_aes.BlockSize; lia). cbn [orReturn].
  destruct (GenerateBytes_value filled crypto_aes.BlockSize Hr ltac:(unfold crypto_aes.BlockSize; lia))
    as (iv & -> & Hiv). cbn [bind].
  destruct (NewCipher_value key Hkey) as (block & -> & Hblock). cbn [orReturn].
  unfold crypto_cipher.CBCEncrypt. rewrite Hiv, Z.eqb_refl. cbn [negb].
  rewrite len_app, len_repeat.
  pose proof (len_nonneg plain).
  pose proof (Z.mod_pos_bound (len plain) crypto_aes.BlockSize ltac:(unfold crypto_aes.BlockSize; lia)).
  rewrite Z2Nat.id by lia.
  rewrite Z.rem_mod_nonneg by (unfold crypto_aes.BlockSize in *; lia).
  replace ((len plain + (crypto_aes.BlockSize - len plain mod crypto_aes.BlockSize))
             mod crypto_aes.BlockSize) with 0.
  - cbn. eauto.
  - unfold crypto_aes.BlockSize in *.
    rewrite Z.add_mod, Zminus_mod_idemp_r by lia.
    rewrite <- Z.add_mod by lia.
    replace (len plain + (16 - len plain)) with (1 * 16) by lia.
    now rewrite Z.mod_mul.
Qed.

Lemma Decrypt_Encrypt (key plain cipher : list byte) :
  aes.Encrypt key plain = Value cipher ->
  aes.Decrypt key cipher = Value plain.
Proof.
  unfold aes.Encrypt, aes.Decrypt.
  destruct (negb (len key =? 16) && negb (len key =? 24) && negb (len key =? 32))
    eqn:Hcheck; [discriminate|].
  apply aesKeySize_check_false in Hcheck. rename Hcheck into Hkey.
  rewrite Pad_value by (unfold crypto_aes.BlockSize; lia). cbn [orReturn].
  unfold rng.GenerateBytes.
  destruct (Z.ltb_spec crypto_aes.BlockSize 0); [discriminate|].
  destruct rand_Read as [filled|]; [|discriminate]. cbn [bind].
  destruct (NewCipher_value key Hkey) as (block & -> & Hblock). cbn [orReturn].
  remember (List.map filled (List.seq 0 (Z.to_nat crypto_aes.BlockSize))) as iv eqn:Eiv.
  assert (Hiv : List.length iv = 16%nat).
  { subst iv. now rewrite length_map, length_seq. }
  clear Eiv.
  assert (Hivl : len iv = crypto_aes.BlockSize) by (unfold len; rewrite Hiv; reflexivity).
  pose proof (len_nonneg plain) as Hp.
  pose proof (Z.mod_pos_bound (len plain) 16 ltac:(lia)) as Hm.
  unfold crypto_aes.BlockSize in *.
  set (padLen := 16 - len plain mod 16) in *.
  set (padded := plain ++ List.repeat (byteOfInt padLen) (Z.to_nat padLen)).
  assert (Hpl : len padded = len plain + padLen).
  { unfold padded. rewrite len_app, len_repeat. lia. }
  assert (Hpm : (len plain + padLen) mod 16 = 0).
  { unfold padLen.
    replace (len plain + (16 - len plain mod 16))
      with (len plain - len plain mod 16 + 1 * 16) by lia.
    rewrite Z.mod_add by lia.
    rewrite Zminus_mod_idemp_r, Z.sub_diag. reflexivity. }
  unfold crypto_cipher.CBCEncrypt, crypto_cipher.CBCDecrypt, crypto_aes.BlockSize.
  rewrite Hivl, Z.eqb_refl. cbn [negb].
  rewrite Z.rem_mod_nonneg, Hpl, Hpm by lia. cbn [Z.eqb negb bind].
  intros [= <-].
  rewrite (sliceTo_app_len iv _ 16 Hivl), (sliceFrom_app_len iv _ 16 Hivl).
  cbn [bind orReturn].
  rewrite Hivl, Z.eqb_refl. cbn [negb].
  set (n := Z.to_nat ((len plain + padLen) / 16)).
  assert (Hn : List.length padded = (16 * n)%nat).
  { unfold n. apply Nat2Z.inj. fold (len padded). rewrite Hpl.
    rewrite Nat2Z.inj_mul, Z2Nat.id by (apply Z.div_pos; lia).
    apply Z.div_exact in Hpm; lia. }
  pose proof (encryptBlocks_length block n Hblock iv padded Hiv Hn) as Hel.
  assert (Hez : len (crypto_cipher.encryptBlocks block n iv padded) = len plain + padLen).
  { unfold len at 1. rewrite Hel. rewrite <- Hn. fold (len padded). exact Hpl. }
  rewrite Hez, Z.rem_mod_nonneg, Hpm by lia. cbn [Z.eqb negb bind].
  fold n. rewrite (decryptBlocks_encryptBlocks block n Hblock iv padded Hiv Hn).
  unfold padded. rewrite Unpad_padded by lia. reflexivity.
Qed.

End Aes.

(** ** Tokens *)

Lemma Value_inj {A : Type} (a b : A) : Value a = Value b -> a = b.
Proof. now intros [= ->]. Qed.

Lemma join_nonempty (a b : string) (sep : ascii) :
  ((a ++ String sep b) =? "")%string = false.
Proof. now destruct a. Qed.

Section Token.
Context {go : GoStdlib} {spec : GoStdlibSpec go}.

Import token.

(** What a generated token is made of: a signature of the cipher text that
    verifies, and a cipher text that decrypts to the plain text. *)
Lemma Generate_wire (g : Generator.t) (kind : string) (data : list byte)
  (ttl : time.Duration) (tok : string) :
  Generator.Generate g kind data ttl = Value tok ->
  exists signature cipher,
    tok = (base64_RawURLEncoding_EncodeToString signature ++ "."
           ++ base64_RawURLEncoding_EncodeToString cipher)%string
    /\ sig.ValidateSHA256 (Generator.signingKey g) cipher signature = true
    /\ aes.Decrypt (Generator.encryptionKey g) cipher
       = Value (list_byte_of_string (plainText (Generator.now g) kind data ttl)).
Proof.
  unfold Generator.Generate. fold (plainText (Generator.now g) kind data ttl).
  destruct (aes.Encrypt _ _) as [cipher| |] eqn:E; cbn [orReturn]; try discriminate.
  intros H. apply Value_inj in H. subst tok.
  exists (sig.ComputeSHA256 (Generator.signingKey g) cipher), cipher.
  repeat split.
  - unfold sig.ValidateSHA256, sig.Validate, sig.ComputeSHA256. apply Hashes_refl.
  - now apply Decrypt_Encrypt.
Qed.

(** [Generate] returns a token when the key has a valid size and the
    entropy source answers. *)
Lemma Generate_value (g : Generator.t) (kind : string) (data : list byte)
  (ttl : time.Duration) (filled : nat -> byte) :
  aesKeySize (Generator.encryptionKey g) -> rand_Read = Some filled ->
  exists tok, Generator.Generate g kind data ttl = Value tok.
Proof.
  intros Hkey Hr. unfold Generator.Generate.
  destruct (Encrypt_value (Generator.encryptionKey g)
              (list_byte_of_string (plainText (Generator.now g) kind data ttl))
              filled Hkey Hr) as [cipher E].
  unfold plainText in E. rewrite E. cbn [orReturn]. eauto.
Qed.

(** [Validate] on a token whose two parts decode, whose signature verifies
    and whose cipher text decrypts: steps 6 to 10 on the plain text. *)
Lemma Validate_after_decrypt (v : validator.t) (kind tok s c : string)
  (signature cipher plain : list byte) :
  strings.SplitN tok "." 2 = [s; c] ->
  base64_RawURLEncoding_DecodeString s = Some signature ->
  base64_RawURLEncoding_DecodeString c = Some cipher ->
  sig.ValidateSHA256 (validator.signingKey v) cipher signature = true ->
  aes.Decrypt (validator.encryptionKey v) cipher = Value plain ->
  validator.Validate v kind tok =
    let msgParts := strings.SplitN (string_of_list_byte plain) "." 3 in
    if negb (len msgParts =? 3) then Error validator.errToken else
    if negb (kind =? nth 0 msgParts "")%string then Error validator.errToken else
    match time_Parse_RFC3339 (nth 2 msgParts ""%string) with
    | None => Error validator.errToken
    | Some expiry =>
        if time.After (time.UTC (validator.now v)) expiry then Error validator.errToken
        else match base64_RawURLEncoding_DecodeString (nth 1 msgParts ""%string) with
             | None => Error validator.errToken
             | Some data => Value data
             end
    end.
Proof.
  intros Hsplit Hs Hc Hsig Hdec. unfold validator.Validate.
  destruct (String.eqb_spec tok "") as [->|_]; [discriminate Hsplit|].
  rewrite Hsplit. cbn [len List.length Z.of_nat Z.eqb negb nth Pos.of_succ_nat Pos.succ Pos.eqb].
  rewrite Hs, Hc, Hsig, Hdec. cbn [negb orReturn]. reflexivity.
Qed.

(** [Validate] on a generated token, under the keys it was generated with. *)
Lemma Validate_generated (g : Generator.t) (v : validator.t) (kindG kind tok : string)
  (data : list byte) (ttl : time.Duration) :
  validator.encryptionKey v = Generator.encryptionKey g ->
  validator.signingKey v = Generator.signingKey g ->
  Generator.Generate g kindG data ttl = Value tok ->
  validator.Validate v kind tok =
    let msgParts := strings.SplitN (plainText (Generator.now g) kindG data ttl) "." 3 in
    if negb (len msgParts =? 3) then Error validator.errToken else
    if negb (kind =? nth 0 msgParts "")%string then Error validator.errToken else
    match time_Parse_RFC3339 (nth 2 msgParts ""%string) with
    | None => Error validator.errToken
    | Some expiry =>
        if time.After (time.UTC (validator.now v)) expiry then Error validator.errToken
        else match base64_RawURLEncoding_DecodeString (nth 1 msgParts ""%string) with
             | None => Error validator.errToken
             | Some data => Value data
             end
    end.
Proof.
  intros Hek Hsk Hgen.
  destruct (Generate_wire g kindG data ttl tok Hgen) as (signature & cipher & -> & Hsig & Hdec).
  rewrite <- Hek in Hdec. rewrite <- Hsk in Hsig.
  rewrite (Validate_after_decrypt v kind _ _ _ signature cipher _
             (SplitN_2_join _ _ (RawURLEncoding_alphabet signature))
             (RawURLEncoding_Decode_Encode signature)
             (RawURLEncoding_Decode_Encode cipher) Hsig Hdec).
  now rewrite string_of_list_byte_of_string.
Qed.

(** C1, as amended.  For a kind without ['.'], any payload and time to live,
    an encryption key of 16, 24 or 32 bytes and any signing key: when the
    entropy source answers, [Generate] returns a token; and when the expiry
    [now + ttl] lies in the years 0000 to 9999 and the validator, under the
    same keys, reads a clock not after the recorded expiry (the expiry cut
    to its whole second), [Validate] of that token under the same kind
    returns the payload. *)
Theorem token_roundtrip (g : Generator.t) (v : validator.t) (kind : string)
  (data : list byte) (ttl : time.Duration) (filled : nat -> byte) :
  aesKeySize (Generator.encryptionKey g) ->
  rand_Read = Some filled ->
  validator.encryptionKey v = Generator.encryptionKey g ->
  validator.signingKey v = Generator.signingKey g ->
  strings.Contains kind "." = false ->
  time.inRFC3339Range (time.Add (Generator.now g) ttl) ->
  validator.now v <= time.truncateToSecond (time.Add (Generator.now g) ttl) ->
  exists tok,
    Generator.Generate g kind data ttl = Value tok
    /\ validator.Validate v kind tok = Value data.
Proof.
  intros Hkey Hr Hek Hsk Hkind Hrange Hnow.
  destruct (Generate_value g kind data ttl filled Hkey Hr) as [tok Hgen].
  exists tok. split; [exact Hgen|].
  rewrite (Validate_generated g v kind kind tok data ttl Hek Hsk Hgen).
  unfold plainText.
  rewrite (SplitN_3_join _ _ _ Hkind (RawURLEncoding_alphabet data)).
  cbn [len List.length Z.of_nat Z.eqb negb nth Pos.of_succ_nat Pos.succ Pos.eqb].
  rewrite String.eqb_refl. cbn [negb].
  unfold time.UTC. rewrite (time_Parse_Format _ Hrange).
  unfold time.After. destruct (Z.ltb_spec (time.truncateToSecond (time.Add (Generator.now g) ttl))
                                 (validator.now v)); [lia|].
  now rewrite RawURLEncoding_Decode_Encode.
Qed.

(** C2.  A token whose parts decode, whose signature verifies, and whose
    cipher text decrypts to a record of the expected kind, a payload that
    decodes and an expiry that parses, is accepted when the clock reads
    exactly the parsed expiry, and rejected, with the one error, when it
    reads any later instant, one second later in particular. *)
Theorem token_expiry_boundary (encryptionKey signingKey : list byte)
  (kind tok s c : string) (signature cipher plain : list byte)
  (payload stamp : string) (expiry : time.Time) (data : list byte) :
  strings.SplitN tok "." 2 = [s; c] ->
  base64_RawURLEncoding_DecodeString s = Some signature ->
  base64_RawURLEncoding_DecodeString c = Some cipher ->
  sig.ValidateSHA256 signingKey cipher signature = true ->
  aes.Decrypt encryptionKey cipher = Value plain ->
  strings.SplitN (string_of_list_byte plain) "." 3 = [kind; payload; stamp] ->
  base64_RawURLEncoding_DecodeString payload = Some data ->
  time_Parse_RFC3339 stamp = Some expiry ->
  let at_ now := {| validator.now := now;
                    validator.encryptionKey := encryptionKey;
                    validator.signingKey := signingKey |} in
  validator.Validate (at_ expiry) kind tok = Value data
  /\ (forall now, expiry < now ->
        validator.Validate (at_ now) kind tok = Error validator.errToken)
  /\ validator.Validate (at_ (time.Add expiry time.Second)) kind tok
     = Error validator.errToken.
Proof.
  intros Hsplit Hs Hc Hsig Hdec Hrec Hdata Hstamp at_.
  assert (Hat : forall now,
             validator.Validate (at_ now) kind tok
             = if time.After now expiry then Error validator.errToken else Value data).
  { intros now.
    rewrite (Validate_after_decrypt (at_ now) kind tok s c signature cipher plain
               Hsplit Hs Hc Hsig Hdec).
    rewrite Hrec.
    cbn [len List.length Z.of_nat Z.eqb negb nth Pos.of_succ_nat Pos.succ Pos.eqb].
    rewrite String.eqb_refl, Hstamp, Hdata. reflexivity. }
  unfold time.After in Hat. repeat split.
  - rewrite Hat, Z.ltb_irrefl. reflexivity.
  - intros now Hlate. rewrite Hat.
    destruct (Z.ltb_spec expiry now); [reflexivity | lia].
  - rewrite Hat. unfold time.Add, time.Second.
    destruct (Z.ltb_spec expiry (expiry + 1000000000)); [reflexivity | lia].
Qed.

(** C3.  A token generated for one kind is rejected, with the one error,
    when validated for any other kind under the same keys, whatever the
    payload, the time to live and the clocks. *)
Theorem token_kind_binding (g : Generator.t) (v : validator.t) (kindA kindB : string)
  (data : list byte) (ttl : time.Duration) (tok : string) :
  validator.encryptionKey v = Generator.encryptionKey g ->
  validator.signingKey v = Generator.signingKey g ->
  kindA <> kindB ->
  Generator.Generate g kindB data ttl = Value tok ->
  validator.Validate v kindA tok = Error validator.errToken.
Proof.
  intros Hek Hsk Hkinds Hgen.
  rewrite (Validate_generated g v kindB kindA tok data ttl Hek Hsk Hgen).
  unfold plainText.
  destruct (strings.Cut kindB ".") as [[first rest]|] eqn:Hcut.
  - destruct (SplitN_3_dotted_kind kindB first rest
                (base64_RawURLEncoding_EncodeToString data)
                (time_Format_RFC3339 (time.Add (time.UTC (Generator.now g)) ttl)) Hcut)
      as (second & third & ->).
    cbn [len List.length Z.of_nat Z.eqb negb nth Pos.of_succ_nat Pos.succ Pos.eqb].
    destruct (kindA =? first)%string; cbn [negb]; [|reflexivity].
    now rewrite time_Parse_dotted_tail.
  - apply Contains_false_Cut in Hcut.
    rewrite (SplitN_3_join _ _ _ Hcut (RawURLEncoding_alphabet data)).
    cbn [len List.length Z.of_nat Z.eqb negb nth Pos.of_succ_nat Pos.succ Pos.eqb].
    destruct (String.eqb_spec kindA kindB); [contradiction | reflexivity].
Qed.

(** [Validator.Validate] and [validator.Validate] accept the same tokens,
    with the same result; what differs is the error of a rejection. *)
Lemma Validate_same_verdict (now : time.Time) (encryptionKey signingKey : list byte)
  (kind tok : string) :
  validator.Validate
    {| validator.now := now; validator.encryptionKey := encryptionKey;
       validator.signingKey := signingKey |} kind tok
  = match Validator.Validate
            {| Validator.now := now; Validator.encryptionKey := encryptionKey;
               Validator.signingKey := signingKey |} kind tok with
    | Value data => Value data
    | Error _ => Error validator.errToken
    | Panic => Panic
    end.
Proof.
  unfold validator.Validate, Validator.Validate.
  cbn [validator.now validator.encryptionKey validator.signingKey
       Validator.now Validator.encryptionKey Validator.signingKey].
  destruct (tok =? "")%string; [reflexivity|].
  destruct (negb (len (strings.SplitN tok "." 2) =? 2)); [reflexivity|].
  destruct (base64_RawURLEncoding_DecodeString (nth 0 (strings.SplitN tok "." 2) ""%string));
    [|reflexivity].
  destruct (base64_RawURLEncoding_DecodeString (nth 1 (strings.SplitN tok "." 2) ""%string));
    [|reflexivity].
  destruct (negb (sig.ValidateSHA256 signingKey l0 l)); [reflexivity|].
  destruct (aes.Decrypt encryptionKey l0) as [plain| |]; cbn [orReturn]; try reflexivity.
  destruct (negb (len (strings.SplitN (string_of_list_byte plain) "." 3) =? 3));
    [reflexivity|].
  destruct (negb (kind =? nth 0 (strings.SplitN (string_of_list_byte plain) "." 3) "")%string);
    [reflexivity|].
  destruct (time_Parse_RFC3339 _); [|reflexivity].
  destruct (time.After _ _); [reflexivity|].
  destruct (base64_RawURLEncoding_DecodeString _); reflexivity.
Qed.


End Token.

(** ** The instance [toy.go] meets [GoStdlibSpec] *)

Lemma Contains_cons (c sep : ascii) (s : string) :
  Ascii.eqb c sep = false ->
  strings.Contains (String c s) sep = strings.Contains s sep.
Proof.
  intros H. unfold strings.Contains. simpl. rewrite H.
  now destruct (strings.Cut s sep) as [[before after]|].
Qed.

Lemma Contains_join (a b : string) (sep : ascii) :
  strings.Contains (a ++ String sep b) sep = true.
Proof.
  unfold strings.Contains. induction a as [|x a IH]; simpl.
  - now rewrite Ascii.eqb_refl.
  - destruct (Ascii.eqb x sep); [reflexivity|].
    destruct (strings.Cut (a ++ String sep b) sep) as [[before after]|];
      [reflexivity | discriminate].
Qed.

Lemma toy_hex_byte (x : byte) (s : string) :
  toy.DecodeString
    (String (toy.hexDigit (Byte.to_N x / 16))
       (String (toy.hexDigit (Byte.to_N x mod 16)) s))
  = match toy.DecodeString s with
    | Some b => Some (x :: b)
    | None => None
    end.
Proof. destruct x; reflexivity. Qed.

Lemma toy_hex_no_dot (x : byte) :
  Ascii.eqb (toy.hexDigit (Byte.to_N x / 16)) "." = false
  /\ Ascii.eqb (toy.hexDigit (Byte.to_N x mod 16)) "." = false.
Proof. destruct x; split; reflexivity. Qed.

Lemma toy_Decode_Encode (b : list byte) :
  toy.DecodeString (toy.EncodeToString b) = Some b.
Proof.
  induction b as [|x b IH]; [reflexivity|].
  cbn [toy.EncodeToString]. now rewrite toy_hex_byte, IH.
Qed.

Lemma toy_alphabet (b : list byte) :
  strings.Contains (toy.EncodeToString b) "." = false.
Proof.
  induction b as [|x b IH]; [reflexivity|].
  cbn [toy.EncodeToString]. destruct (toy_hex_no_dot x) as [Hhi Hlo].
  now rewrite !Contains_cons.
Qed.

Lemma toy_Block_length (key src : list byte) :
  aesKeySize key -> len src = 16 -> len (toy.Block_Encrypt key src) = 16.
Proof.
  unfold aesKeySize, toy.Block_Encrypt, len. intros Hkey Hsrc.
  rewrite xorBytes_length; [exact Hsrc|].
  rewrite length_firstn. lia.
Qed.

Lemma toy_Block_involutive (key src : list byte) :
  aesKeySize key -> len src = 16 ->
  toy.Block_Encrypt key (toy.Block_Encrypt key src) = src.
Proof.
  unfold aesKeySize, toy.Block_Encrypt, len. intros Hkey Hsrc.
  apply xorBytes_involutive. rewrite length_firstn. lia.
Qed.

Lemma toy_uint_no_dot (d : Decimal.uint) :
  strings.Contains (NilEmpty.string_of_uint d) "." = false.
Proof.
  induction d; simpl; [reflexivity| rewrite Contains_cons; auto ..].
Qed.

Lemma toy_int_no_dot (d : Decimal.int) :
  strings.Contains (NilZero.string_of_int d) "." = false.
Proof.
  destruct d as [u|u]; simpl; [|rewrite Contains_cons by reflexivity];
    (destruct u; [reflexivity | apply toy_uint_no_dot ..]).
Qed.

Lemma toy_Parse_Format (t : time.Time) :
  toy.Parse_RFC3339 (toy.Format_RFC3339 t) = Some (time.truncateToSecond t).
Proof.
  unfold toy.Parse_RFC3339, toy.Format_RFC3339.
  rewrite toy_int_no_dot, NilZero.isi.
  - rewrite DecimalZ.of_to. unfold time.truncateToSecond, time.Second.
    pose proof (Z.div_mod t 1000000000 ltac:(lia)).
    apply f_equal. lia.
  - destruct (t / time.Second); simpl; try discriminate.
    intros [= H]. now apply DecimalPos.Unsigned.to_uint_nonnil in H.
  - destruct (t / time.Second); simpl; try discriminate.
    intros [= H]. now apply DecimalPos.Unsigned.to_uint_nonnil in H.
Qed.

Lemma toy_Parse_dotted_tail (s : string) (t : time.Time) :
  toy.Parse_RFC3339 (s ++ "." ++ toy.Format_RFC3339 t) = None.
Proof.
  unfold toy.Parse_RFC3339.
  change (s ++ "." ++ toy.Format_RFC3339 t)%string
    with (s ++ String "." (toy.Format_RFC3339 t))%string.
  now rewrite Contains_join.
Qed.

Lemma toy_spec : GoStdlibSpec toy.go.
Proof.
  constructor; simpl.
  - exact toy_Decode_Encode.
  - exact toy_alphabet.
  - exact toy_Decode_Encode.
  - exact toy_alphabet.
  - exact toy_Block_length.
  - exact toy_Block_involutive.
  - intros t _. apply toy_Parse_Format.
  - exact toy_Parse_dotted_tail.
Qed.

(** ** Running the token package on [toy.go] *)

Lemma token_roundtrip_witness :
  exists tok,
    token.Generator.Generate (go := toy.go) toy.generator "1" toy.payload toy.ttl
    = Value tok
    /\ token.validator.Validate (go := toy.go) (toy.validatorAt toy.clock) "1" tok
       = Value toy.payload.
Proof.
  apply (token_roundtrip (go := toy.go) (spec := toy_spec) toy.generator
           (toy.validatorAt toy.clock) "1" toy.payload toy.ttl
           (fun i => byteOfInt (37 * Z.of_nat i + 11))).
  - left. reflexivity.
  - reflexivity.
  - reflexivity.
  - reflexivity.
  - reflexivity.
  - unfold time.inRFC3339Range. vm_compute. split; [discriminate | reflexivity].
  - vm_compute. discriminate.
Defined.

(** C1 as stated fails.  A kind with a ['.'] in it is cut at that ['.'] when
    the record is read back, so the token of kind ["a.b"] is rejected under
    kind ["a.b"]; and the expiry is recorded in whole seconds, so a token
    generated at half past a second is rejected two tenths of a second
    after the whole second of its expiry, before the expiry itself. *)
Lemma token_roundtrip_fails :
  (tok <- token.Generator.Generate (go := toy.go) toy.generator "a.b" toy.payload toy.ttl ;;
   token.validator.Validate (go := toy.go) (toy.validatorAt toy.clock) "a.b" tok)
  = Error token.validator.errToken
  /\ (tok <- token.Generator.Generate (go := toy.go) toy.generator "1" toy.payload toy.ttl ;;
      token.validator.Validate (go := toy.go)
        (toy.validatorAt (time.Add toy.clock toy.ttl - 300000000)) "1" tok)
     = Error token.validator.errToken.
Proof. split; vm_compute; reflexivity. Qed.

Lemma token_expiry_boundary_witness :
  let expiry := time.truncateToSecond (time.Add toy.clock toy.ttl) in
  token.validator.Validate (go := toy.go) (toy.validatorAt expiry) "1" toy.tok
  = Value toy.payload
  /\ (forall now, expiry < now ->
        token.validator.Validate (go := toy.go) (toy.validatorAt now) "1" toy.tok
        = Error token.validator.errToken)
  /\ token.validator.Validate (go := toy.go)
       (toy.validatorAt (time.Add expiry time.Second)) "1" toy.tok
     = Error token.validator.errToken.
Proof.
  eapply (token_expiry_boundary (go := toy.go) toy.key16 toy.signKey "1" toy.tok).
  - cbv. reflexivity.
  - cbv. reflexivity.
  - cbv. reflexivity.
  - vm_compute. reflexivity.
  - vm_compute. reflexivity.
  - cbv. reflexivity.
  - cbv. reflexivity.
  - vm_compute. reflexivity.
Defined.

Lemma token_kind_binding_witness :
  token.validator.Validate (go := toy.go) (toy.validatorAt toy.clock) "2" toy.tok
  = Error token.validator.errToken.
Proof.
  apply (token_kind_binding (go := toy.go) (spec := toy_spec) toy.generator
           (toy.validatorAt toy.clock) "2" "1" toy.payload toy.ttl toy.tok).
  - reflexivity.
  - reflexivity.
  - discriminate.
  - vm_compute. reflexivity.
Defined.


(** ** Cipher texts shorter than a block *)

Section ShortCipher.
Context {go : GoStdlib}.

Lemma Decrypt_short (key scrambled : list byte) :
  aesKeySize key -> len scrambled < 16 -> aes.Decrypt key scrambled = Panic.
Proof.
  intros Hkey Hshort. unfold aes.Decrypt.
  rewrite (aesKeySize_check key Hkey).
  unfold sliceTo, crypto_aes.BlockSize.
  destruct (Z.ltb_spec (len scrambled) 16); [|lia].
  reflexivity.
Qed.

(** C10.  Under a key of a valid size, [aes.Decrypt] panics on every cipher
    text of fewer than 16 bytes; and so does [Validate] on a token whose
    second part decodes to such a cipher text and whose first part decodes
    to its valid signature. *)
Theorem short_cipher_panics (v : token.validator.t) (kind tok s c : string)
  (signature cipher : list byte) :
  aesKeySize (token.validator.encryptionKey v) ->
  (forall scrambled, len scrambled < 16 ->
     aes.Decrypt (token.validator.encryptionKey v) scrambled = Panic)
  /\ (strings.SplitN tok "." 2 = [s; c] ->
      base64_RawURLEncoding_DecodeString s = Some signature ->
      base64_RawURLEncoding_DecodeString c = Some cipher ->
      sig.ValidateSHA256 (token.validator.signingKey v) cipher signature = true ->
      len cipher < 16 ->
      token.validator.Validate v kind tok = Panic).
Proof.
  intros Hkey. split.
  - intros scrambled. now apply Decrypt_short.
  - intros Hsplit Hs Hc Hsig Hshort. unfold token.validator.Validate.
    destruct (String.eqb_spec tok "") as [->|_]; [discriminate Hsplit|].
    rewrite Hsplit.
    cbn [len List.length Z.of_nat Z.eqb negb nth Pos.of_succ_nat Pos.succ Pos.eqb].
    rewrite Hs, Hc, Hsig, (Decrypt_short _ _ Hkey Hshort). reflexivity.
Qed.

End ShortCipher.

Lemma short_cipher_panics_witness :
  (forall scrambled, len scrambled < 16 ->
     aes.Decrypt (go := toy.go) toy.key16 scrambled = Panic)
  /\ token.validator.Validate (go := toy.go) (toy.validatorAt toy.clock) "1" toy.shortTok
     = Panic.
Proof.
  destruct (short_cipher_panics (go := toy.go) (toy.validatorAt toy.clock) "1" toy.shortTok
              (toy.EncodeToString (sig.ComputeSHA256 (go := toy.go) toy.signKey toy.shortCipher))
              (toy.EncodeToString toy.shortCipher)
              (sig.ComputeSHA256 (go := toy.go) toy.signKey toy.shortCipher)
              toy.shortCipher)
    as [Hdecrypt Hvalidate].
  - left. reflexivity.
  - split; [exact Hdecrypt|].
    apply Hvalidate.
    + vm_compute. reflexivity.
    + vm_compute. reflexivity.
    + vm_compute. reflexivity.
    + vm_compute. reflexivity.
    + vm_compute. reflexivity.
Defined.

(** ** Password hashes *)

Section Password.
Context {go : GoStdlib} {spec : GoStdlibSpec go}.

(** A stored hash of a strategy without ['.'] parses back to its parts. *)
Lemma parsePasswordHash_String (strategy : string) (salt hash : list byte) :
  strings.Contains strategy "." = false ->
  pwd.parsePasswordHash
    (pwd.String {| pwd.salt := salt; pwd.hash := hash; pwd.strategy := strategy;
                   pwd.base64Salt := base64_StdEncoding_EncodeToString salt;
                   pwd.base64Hash := base64_StdEncoding_EncodeToString hash |})
  = Value (Some {| pwd.salt := salt; pwd.hash := hash; pwd.strategy := strategy;
                   pwd.base64Salt := base64_StdEncoding_EncodeToString salt;
                   pwd.base64Hash := base64_StdEncoding_EncodeToString hash |}).
Proof.
  intros Hstrategy. unfold pwd.parsePasswordHash, pwd.String.
  cbn [pwd.strategy pwd.base64Salt pwd.base64Hash].
  change (strategy ++ "." ++ base64_StdEncoding_EncodeToString salt ++ "."
          ++ base64_StdEncoding_EncodeToString hash)%string
    with (strategy ++ String "." (base64_StdEncoding_EncodeToString salt ++ "."
          ++ base64_StdEncoding_EncodeToString hash))%string.
  rewrite join_nonempty.
  change (strategy ++ String "." (base64_StdEncoding_EncodeToString salt ++ "."
          ++ base64_StdEncoding_EncodeToString hash))%string
    with (strategy ++ "." ++ base64_StdEncoding_EncodeToString salt ++ "."
          ++ base64_StdEncoding_EncodeToString hash)%string.
  rewrite (Split_3_join _ _ _ Hstrategy (StdEncoding_alphabet salt) (StdEncoding_alphabet hash)).
  cbn [len List.length Z.of_nat Z.eqb negb nth Pos.of_succ_nat Pos.succ Pos.eqb].
  now rewrite !StdEncoding_Decode_Encode.
Qed.

(** What [ValidatePassword] returns for a non-empty password and a stored
    hash that parses, under a strategy the factory resolves, when the hash
    function returns. *)
Lemma ValidatePassword_value (v : pwd.Validator.t) (factory : pwd.hashFuncFactory)
  (password stored : string) (pwdh : pwd.passwordHash) (kdf : pwd.hashFunc)
  (computed : list byte) :
  pwd.Validator.parseHash v = Some pwd.parsePasswordHash ->
  pwd.Validator.computeHashFactory v = Some factory ->
  password <> ""%string ->
  pwd.parsePasswordHash stored = Value (Some pwdh) ->
  factory (pwd.strategy pwdh) = Value (Some kdf) ->
  kdf (list_byte_of_string password) (pwd.salt pwdh) = Value computed ->
  pwd.Validator.ValidatePassword v password stored
  = Value (compare.Hashes (pwd.hash pwdh) computed,
           compare.Hashes (pwd.hash pwdh) computed
           && negb (pwd.strategy pwdh =? pwd.Validator.defaultStrategy v)%string).
Proof.
  intros Hparse Hfactory Hpassword Hstored Hkdf Hcomputed.
  unfold pwd.Validator.ValidatePassword, pwd.Validator.validatePassword.
  rewrite Hparse, Hstored, Hfactory.
  destruct (String.eqb_spec password ""); [contradiction|].
  rewrite Hkdf, Hcomputed. reflexivity.
Qed.



End Password.





(** ** Malformed input *)

Section Malformed.
Context {go : GoStdlib}.

(** C9.  [Validate] returns the one error, and does not panic, on the empty
    token, on a token that does not split into two parts at a ['.'], and on
    a token one of whose parts is not base64.  [ValidatePassword], of a
    validator that parses with [parsePasswordHash], returns [(false,
    false)], and does not panic, on the empty stored hash, on one that does
    not split into three parts at ['.'], and on one whose salt or hash is
    not base64. *)
Theorem malformed_input_rejected (v : token.validator.t) (pv : pwd.Validator.t)
  (kind tok password stored : string) :
  (tok = ""%string
   \/ len (strings.SplitN tok "." 2) <> 2
   \/ base64_RawURLEncoding_DecodeString (nth 0 (strings.SplitN tok "." 2) ""%string) = None
   \/ base64_RawURLEncoding_DecodeString (nth 1 (strings.SplitN tok "." 2) ""%string) = None ->
   token.validator.Validate v kind tok = Error token.validator.errToken)
  /\ (pwd.Validator.parseHash pv = Some pwd.parsePasswordHash ->
      stored = ""%string
      \/ len (strings.Split stored ".") <> 3
      \/ base64_StdEncoding_DecodeString (nth 1 (strings.Split stored ".") ""%string) = None
      \/ base64_StdEncoding_DecodeString (nth 2 (strings.Split stored ".") ""%string) = None ->
      pwd.Validator.ValidatePassword pv password stored = Value (false, false)).
Proof.
  split.
  - intros H. unfold token.validator.Validate.
    destruct (String.eqb_spec tok ""); [reflexivity|].
    destruct (Z.eqb_spec (len (strings.SplitN tok "." 2)) 2); cbn [negb]; [|reflexivity].
    destruct (base64_RawURLEncoding_DecodeString (nth 0 (strings.SplitN tok "." 2) ""%string));
      [|reflexivity].
    destruct (base64_RawURLEncoding_DecodeString (nth 1 (strings.SplitN tok "." 2) ""%string));
      [|reflexivity].
    destruct H as [H|[H|[H|H]]]; congruence.
  - intros Hparse H. unfold pwd.Validator.ValidatePassword. rewrite Hparse.
    unfold pwd.parsePasswordHash.
    destruct (String.eqb_spec stored ""); [reflexivity|].
    destruct (Z.eqb_spec (len (strings.Split stored ".")) 3); cbn [negb]; [|reflexivity].
    destruct (base64_StdEncoding_DecodeString (nth 1 (strings.Split stored ".") ""%string));
      [|reflexivity].
    destruct (base64_StdEncoding_DecodeString (nth 2 (strings.Split stored ".") ""%string));
      [|reflexivity].
    destruct H as [H|[H|[H|H]]]; congruence.
Qed.

End Malformed.

Lemma malformed_input_rejected_witness :
  token.validator.Validate (go := toy.go) (toy.validatorAt toy.clock) "1" "no.base64"
  = Error token.validator.errToken
  /\ pwd.Validator.ValidatePassword (pwd.NewValidator (go := toy.go)) "Just4Now"
       "pbkdf2/hmacsha256/12/G8.00"
     = Value (false, false).
Proof.
  destruct (malformed_input_rejected (go := toy.go) (toy.validatorAt toy.clock)
              (pwd.NewValidator (go := toy.go)) "1" "no.base64" "Just4Now"
              "pbkdf2/hmacsha256/12/G8.00") as [Htoken Hstored].
  split.
  - apply Htoken. right. right. left. reflexivity.
  - apply Hstored; [reflexivity|]. right. left. vm_compute. discriminate.
Defined.

(** * Further properties of the packages *)

(** ** [compare] and [sig] *)

(** X1.  [Hashes] returns [true] exactly when the two slices are equal,
    byte for byte and in length. *)
Theorem compare_Hashes_decides_equality (hash1 hash2 : list byte) :
  compare.Hashes hash1 hash2 = true <-> hash1 = hash2.
Proof.
  split.
  - unfold compare.Hashes.
    destruct (Z.eqb_spec (len hash1) (len hash2)) as [E|E]; simpl; [|discriminate].
    apply Hashes_fold_true. unfold len in E. lia.
  - intros ->. apply Hashes_refl.
Qed.

Section Signatures.
Context {go : GoStdlib}.

(** X2.  A signature validates exactly when it is the one [Compute] gives
    for the key and the message: a computed signature validates, and
    nothing else does, whatever the hash. *)
Theorem sig_Validate_iff_computed (hasher : HashFactory) (key msg signature : list byte) :
  (sig.Validate hasher key msg signature = true
   <-> signature = sig.Compute hasher key msg)
  /\ (sig.ValidateSHA256 key msg signature = true
      <-> signature = sig.ComputeSHA256 key msg).
Proof.
  unfold sig.ValidateSHA256, sig.ComputeSHA256, sig.Validate.
  split; apply Hashes_true_iff.
Qed.

End Signatures.

(** ** [pkcs7] *)

Lemma existsb_differs_false (x : byte) (l : list byte) :
  existsb (fun b => negb (Byte.eqb b x)) l = false ->
  l = List.repeat x (List.length l).
Proof.
  induction l as [|y l IH]; simpl; [reflexivity|].
  intros H. apply orb_false_iff in H. destruct H as [Hy Hl].
  apply negb_false_iff, Byte.byte_dec_bl in Hy. subst y.
  now rewrite <- IH.
Qed.

Lemma existsb_differs_true (x : byte) (l : list byte) :
  (exists b, In b l /\ b <> x) ->
  existsb (fun b => negb (Byte.eqb b x)) l = true.
Proof.
  intros (b & Hin & Hb). apply existsb_exists. exists b. split; [exact Hin|].
  apply negb_true_iff. destruct (Byte.eqb b x) eqn:E; [|reflexivity].
  apply Byte.byte_dec_bl in E. contradiction.
Qed.

(** [Unpad] on data of an accepted length, by cases on the final byte. *)
Lemma Unpad_cases (data : list byte) (blockSize : Z) :
  1 <= blockSize -> 0 < len data -> len data mod blockSize = 0 ->
  pkcs7.Unpad data blockSize =
    let padLen := intOfByte (List.last data x00) in
    if len data <? padLen then Panic
    else if existsb (fun b => negb (Byte.eqb b (List.last data x00)))
              (skipn (Z.to_nat (len data - padLen)) data)
         then Error "pkcs7: Invalid padding"
         else Value (firstn (Z.to_nat (len data - padLen)) data).
Proof.
  intros Hn Hlen Hmod. unfold pkcs7.Unpad.
  destruct (Z.ltb_spec blockSize 1); [lia|].
  rewrite Z.rem_mod_nonneg, Hmod by lia.
  destruct (Z.eqb_spec (len data) 0); [lia|]. cbn [Z.eqb negb orb].
  rewrite byteOfInt_intOfByte.
  pose proof (intOfByte_range (List.last data x00)) as Hk.
  cbv zeta. unfold sliceFrom, sliceTo.
  destruct (Z.ltb_spec (len data) (intOfByte (List.last data x00))) as [Hlt|Hge].
  - destruct (Z.ltb_spec (len data - intOfByte (List.last data x00)) 0); [|lia].
    reflexivity.
  - destruct (Z.ltb_spec (len data - intOfByte (List.last data x00)) 0); [lia|].
    destruct (Z.ltb_spec (len data) (len data - intOfByte (List.last data x00))); [lia|].
    reflexivity.
Qed.



(** X4.  What [Unpad] accepts: it returns [out] exactly when the block
    size is at least 1, the data is not empty, its length is a multiple of
    the block size, and the data is [out] followed by as many copies of its
    final byte as that byte's value.  The result is never longer than the
    data, and nothing bounds the stripped length by the block size, or from
    below by 1. *)
Theorem pkcs7_Unpad_accepts_iff (data out : list byte) (blockSize : Z) :
  pkcs7.Unpad data blockSize = Value out
  <-> 1 <= blockSize /\ 0 < len data /\ len data mod blockSize = 0
      /\ data = out ++ List.repeat (List.last data x00)
                         (Z.to_nat (intOfByte (List.last data x00))).
Proof.
  pose proof (len_nonneg data) as Hd.
  pose proof (intOfByte_range (List.last data x00)) as Hk.
  split.
  - intros H.
    assert (Hn : 1 <= blockSize).
    { unfold pkcs7.Unpad in H. destruct (Z.ltb_spec blockSize 1); [discriminate | lia]. }
    assert (Hsize : 0 < len data /\ len data mod blockSize = 0).
    { unfold pkcs7.Unpad in H. destruct (Z.ltb_spec blockSize 1); [lia|].
      rewrite Z.rem_mod_nonneg in H by lia.
      destruct (Z.eqb_spec (len data mod blockSize) 0);
        destruct (Z.eqb_spec (len data) 0); try discriminate H. lia. }
    destruct Hsize as [Hlen Hmod].
    rewrite (Unpad_cases data blockSize Hn Hlen Hmod) in H. cbv zeta in H.
    destruct (Z.ltb_spec (len data) (intOfByte (List.last data x00))); [discriminate|].
    destruct (existsb _ _) eqn:E; [discriminate|].
    apply Value_inj in H. subst out.
    repeat split; try assumption.
    apply existsb_differs_false in E. rewrite length_skipn in E.
    replace (Z.to_nat (intOfByte (List.last data x00)))
      with (List.length data - Z.to_nat (len data - intOfByte (List.last data x00)))%nat
      by (unfold len in *; lia).
    rewrite <- E. symmetry. apply firstn_skipn.
  - intros (Hn & Hlen & Hmod & Hdata).
    rewrite (Unpad_cases data blockSize Hn Hlen Hmod). cbv zeta.
    remember (List.last data x00) as l eqn:El. clear El.
    assert (Hl : len data = len out + intOfByte l).
    { rewrite Hdata at 1. rewrite len_app, len_repeat. lia. }
    pose proof (len_nonneg out).
    destruct (Z.ltb_spec (len data) (intOfByte l)); [lia|].
    replace (len data - intOfByte l) with (len out) by lia.
    rewrite Hdata, skipn_len_app, firstn_len_app.
    now rewrite existsb_repeat_false by now rewrite byte_eqb_refl.
Qed.

(** X5.  When [Unpad] fails.  It panics exactly when the data has an
    accepted length and its final byte is larger than that length; and it
    returns the error "Invalid padding" when the final byte fits the length
    but one of the bytes it counts differs from it. *)
Theorem pkcs7_Unpad_failures (data : list byte) (blockSize : Z) :
  (pkcs7.Unpad data blockSize = Panic
   <-> 1 <= blockSize /\ 0 < len data /\ len data mod blockSize = 0
       /\ len data < intOfByte (List.last data x00))
  /\ (1 <= blockSize /\ 0 < len data /\ len data mod blockSize = 0
      /\ intOfByte (List.last data x00) <= len data
      /\ (exists b,
            In b (skipn (Z.to_nat (len data - intOfByte (List.last data x00))) data)
            /\ b <> List.last data x00) ->
      pkcs7.Unpad data blockSize = Error "pkcs7: Invalid padding").
Proof.
  pose proof (len_nonneg data) as Hd. split; [split|].
  - intros H.
    assert (Hn : 1 <= blockSize).
    { unfold pkcs7.Unpad in H. destruct (Z.ltb_spec blockSize 1); [discriminate | lia]. }
    assert (Hsize : 0 < len data /\ len data mod blockSize = 0).
    { unfold pkcs7.Unpad in H. destruct (Z.ltb_spec blockSize 1); [lia|].
      rewrite Z.rem_mod_nonneg in H by lia.
      destruct (Z.eqb_spec (len data mod blockSize) 0);
        destruct (Z.eqb_spec (len data) 0); try discriminate H. lia. }
    destruct Hsize as [Hlen Hmod].
    rewrite (Unpad_cases data blockSize Hn Hlen Hmod) in H. cbv zeta in H.
    destruct (Z.ltb_spec (len data) (intOfByte (List.last data x00))); [auto|].
    destruct (existsb _ _); discriminate.
  - intros (Hn & Hlen & Hmod & Hbig).
    rewrite (Unpad_cases data blockSize Hn Hlen Hmod). cbv zeta.
    destruct (Z.ltb_spec (len data) (intOfByte (List.last data x00))); [reflexivity | lia].
  - intros (Hn & Hlen & Hmod & Hfit & Hdiff).
    rewrite (Unpad_cases data blockSize Hn Hlen Hmod). cbv zeta.
    destruct (Z.ltb_spec (len data) (intOfByte (List.last data x00))); [lia|].
    now rewrite (existsb_differs_true _ _ Hdiff).
Qed.

Lemma compare_Hashes_decides_equality_witness :
  compare.Hashes [x01; x02] [x01; x02] = true.
Proof.
  apply (proj2 (compare_Hashes_decides_equality [x01; x02] [x01; x02])). reflexivity.
Defined.

Lemma sig_Validate_iff_computed_witness :
  sig.ValidateSHA256 (go := toy.go) toy.signKey sample.plain
    (sig.ComputeSHA256 (go := toy.go) toy.signKey sample.plain) = true.
Proof.
  apply (proj2 (proj2 (sig_Validate_iff_computed (go := toy.go) tt toy.signKey sample.plain
                         (sig.ComputeSHA256 (go := toy.go) toy.signKey sample.plain)))).
  reflexivity.
Defined.

Lemma pkcs7_Unpad_accepts_iff_witness :
  pkcs7.Unpad [x61; x62; x02; x02] 4 = Value [x61; x62].
Proof.
  apply (proj2 (pkcs7_Unpad_accepts_iff [x61; x62; x02; x02] [x61; x62] 4)).
  repeat split; try reflexivity. lia.
Defined.

Lemma pkcs7_Unpad_failures_witness :
  pkcs7.Unpad [x61; x62; x63; x09] 4 = Panic
  /\ pkcs7.Unpad [x61; x62; x03; x02] 2 = Error "pkcs7: Invalid padding".
Proof.
  split.
  - apply (proj2 (proj1 (pkcs7_Unpad_failures [x61; x62; x63; x09] 4))).
    repeat split; try reflexivity; lia.
  - apply (proj2 (pkcs7_Unpad_failures [x61; x62; x03; x02] 2)).
    repeat split; try reflexivity; try lia.
    + vm_compute. discriminate.
    + exists x03. split; [vm_compute; auto | discriminate].
Defined.

(** ** [rng] and [aes] *)

Section AesMore.
Context {go : GoStdlib} {spec : GoStdlibSpec go}.

Lemma aesKeySize_check_true (key : list byte) :
  ~ aesKeySize key ->
  negb (len key =? 16) && negb (len key =? 24) && negb (len key =? 32) = true.
Proof.
  unfold aesKeySize. intros H.
  destruct (Z.eqb_spec (len key) 16); [tauto|].
  destruct (Z.eqb_spec (len key) 24); [tauto|].
  destruct (Z.eqb_spec (len key) 32); [tauto|reflexivity].
Qed.

(** X6.  Under a key of 16, 24 or 32 bytes and an entropy source that
    answers, [Encrypt] returns a cipher text that [Decrypt] turns back into
    the plain text.  The cipher text is the 16 bytes drawn from the entropy
    source followed by the encrypted blocks of the padded plain text: its
    length is the next multiple of 16 above the plain text's, plus 16. *)
Theorem aes_Decrypt_Encrypt (key plain : list byte) (filled : nat -> byte) :
  aesKeySize key -> rand_Read = Some filled ->
  exists cipher,
    aes.Encrypt key plain = Value cipher
    /\ aes.Decrypt key cipher = Value plain
    /\ firstn 16 cipher = List.map filled (List.seq 0 16)
    /\ len cipher = 16 + 16 * (len plain / 16 + 1).
Proof.
  intros Hkey Hr.
  destruct (Encrypt_value key plain filled Hkey Hr) as [cipher E].
  exists cipher. split; [exact E|]. split; [now apply Decrypt_Encrypt|].
  revert E. unfold aes.Encrypt.
  rewrite (aesKeySize_check key Hkey).
  rewrite Pad_value by (unfold crypto_aes.BlockSize; lia). cbn [orReturn].
  unfold rng.GenerateBytes. rewrite Hr.
  destruct (Z.ltb_spec crypto_aes.BlockSize 0); [discriminate|]. cbn [bind].
  destruct (NewCipher_value key Hkey) as (block & -> & Hblock). cbn [orReturn].
  unfold crypto_aes.BlockSize in *.
  change (Z.to_nat 16) with 16%nat.
  remember (List.map filled (List.seq 0 16)) as iv eqn:Eiv.
  assert (Hiv : List.length iv = 16%nat) by (subst iv; now rewrite length_map, length_seq).
  assert (Hivl : len iv = 16) by (unfold len; rewrite Hiv; reflexivity).
  pose proof (len_nonneg plain) as Hp.
  pose proof (Z.mod_pos_bound (len plain) 16 ltac:(lia)) as Hm.
  set (padLen := 16 - len plain mod 16) in *.
  set (padded := plain ++ List.repeat (byteOfInt padLen) (Z.to_nat padLen)).
  assert (Hpl : len padded = len plain + padLen).
  { unfold padded. rewrite len_app, len_repeat. lia. }
  assert (Hdiv : len plain + padLen = 16 * (len plain / 16 + 1)).
  { unfold padLen. pose proof (Z.div_mod (len plain) 16 ltac:(lia)). lia. }
  assert (Hpm : (len plain + padLen) mod 16 = 0).
  { rewrite Hdiv, Z.mul_comm. apply Z.mod_mul. lia. }
  unfold crypto_cipher.CBCEncrypt, crypto_aes.BlockSize.
  rewrite Hivl, Z.eqb_refl. cbn [negb].
  rewrite Z.rem_mod_nonneg, Hpl, Hpm by lia. cbn [Z.eqb negb bind].
  intros Hc. apply Value_inj in Hc. subst cipher.
  set (n := Z.to_nat ((len plain + padLen) / 16)).
  assert (Hn : List.length padded = (16 * n)%nat).
  { unfold n. apply Nat2Z.inj. fold (len padded). rewrite Hpl.
    rewrite Nat2Z.inj_mul, Z2Nat.id by (apply Z.div_pos; lia).
    apply Z.div_exact in Hpm; lia. }
  pose proof (encryptBlocks_length block n Hblock iv padded Hiv Hn) as Hel.
  split.
  - rewrite firstn_app, firstn_all2 by lia.
    rewrite Hiv, Nat.sub_diag, firstn_O. apply app_nil_r.
  - rewrite len_app, Hivl. unfold len at 1. rewrite Hel, <- Hn.
    fold (len padded). lia.
Qed.

(** X7.  A key that is not 16, 24 or 32 bytes long is refused with an
    error by [Encrypt], which states its length, and by [Decrypt], before
    either looks at the text: [Decrypt] does not panic then, however short
    the cipher text. *)
Theorem aes_key_length_checked_first (key text : list byte) :
  ~ aesKeySize key ->
  aes.Encrypt key text
  = Error ("encryption key must be either 16, 24 or 32 bytes long. Current key length: "
           ++ itoa (len key))
  /\ aes.Decrypt key text
     = Error "encryption key must be either 16, 24 or 32 bytes long".
Proof.
  intros Hkey. unfold aes.Encrypt, aes.Decrypt.
  now rewrite (aesKeySize_check_true key Hkey).
Qed.

(** X8.  Under a key of a valid size, [Decrypt] panics on a cipher text of
    16 bytes or more whose length is not a multiple of 16 (in
    [CryptBlocks]), and returns an error, from [Unpad], on one of exactly
    16 bytes, which is an IV and nothing else. *)
Theorem aes_Decrypt_partial_blocks (key cipher : list byte) :
  aesKeySize key ->
  (16 <= len cipher -> len cipher mod 16 <> 0 -> aes.Decrypt key cipher = Panic)
  /\ (len cipher = 16 ->
      aes.Decrypt key cipher
      = Error "error when un-padding message with PKCS7: pkcs7: Invalid data length 0").
Proof.
  intros Hkey.
  assert (Hiv : 16 <= len cipher -> len (firstn 16 cipher) = 16).
  { unfold len. intros H. rewrite length_firstn. lia. }
  assert (Hrest : 16 <= len cipher -> len (skipn 16 cipher) = len cipher - 16).
  { unfold len. intros H. rewrite length_skipn. lia. }
  split.
  - intros Hlen Hmod. unfold aes.Decrypt.
    rewrite (aesKeySize_check key Hkey).
    unfold sliceTo, sliceFrom, crypto_aes.BlockSize.
    destruct (Z.ltb_spec (len cipher) 16); [lia|].
    change (16 <? 0) with false. cbn [orb bind].
    destruct (NewCipher_value key Hkey) as (block & -> & _). cbn [orReturn].
    unfold crypto_cipher.CBCDecrypt, crypto_aes.BlockSize.
    change (Z.to_nat 16) with 16%nat.
    rewrite (Hiv Hlen), (Hrest Hlen). cbn [Z.eqb Pos.eqb negb].
    rewrite Z.rem_mod_nonneg by lia.
    replace ((len cipher - 16) mod 16) with (len cipher mod 16).
    + destruct (Z.eqb_spec (len cipher mod 16) 0); [contradiction | reflexivity].
    + replace (len cipher - 16) with (len cipher + (-1) * 16) by lia.
      now rewrite Z.mod_add by lia.
  - intros Hlen. unfold aes.Decrypt.
    rewrite (aesKeySize_check key Hkey).
    unfold sliceTo, sliceFrom, crypto_aes.BlockSize.
    destruct (Z.ltb_spec (len cipher) 16); [lia|].
    change (16 <? 0) with false. cbn [orb bind].
    destruct (NewCipher_value key Hkey) as (block & -> & _). cbn [orReturn].
    unfold crypto_cipher.CBCDecrypt, crypto_aes.BlockSize.
    change (Z.to_nat 16) with 16%nat.
    rewrite (Hiv ltac:(lia)), (Hrest ltac:(lia)), Hlen. reflexivity.
Qed.


End AesMore.

Lemma aes_Decrypt_Encrypt_witness :
  exists cipher,
    aes.Encrypt (go := toy.go) toy.key16 sample.plain = Value cipher
    /\ aes.Decrypt (go := toy.go) toy.key16 cipher = Value sample.plain
    /\ firstn 16 cipher = List.map sample.filled (List.seq 0 16)
    /\ len cipher = 16 + 16 * (len sample.plain / 16 + 1).
Proof.
  apply (aes_Decrypt_Encrypt (go := toy.go) (spec := toy_spec) toy.key16 sample.plain
           sample.filled).
  - left. reflexivity.
  - reflexivity.
Defined.

Lemma aes_key_length_checked_first_witness :
  aes.Encrypt (go := toy.go) sample.key5 sample.plain
  = Error ("encryption key must be either 16, 24 or 32 bytes long. Current key length: "
           ++ itoa (len sample.key5))
  /\ aes.Decrypt (go := toy.go) sample.key5 sample.plain
     = Error "encryption key must be either 16, 24 or 32 bytes long".
Proof.
  apply (aes_key_length_checked_first (go := toy.go) sample.key5 sample.plain).
  unfold aesKeySize. vm_compute. intros [H|[H|H]]; discriminate H.
Defined.

Lemma aes_Decrypt_partial_blocks_witness :
  aes.Decrypt (go := toy.go) toy.key16 sample.plain = Panic
  /\ aes.Decrypt (go := toy.go) toy.key16 toy.key16
     = Error "error when un-padding message with PKCS7: pkcs7: Invalid data length 0".
Proof.
  split.
  - apply (proj1 (aes_Decrypt_partial_blocks (go := toy.go) (spec := toy_spec)
                    toy.key16 sample.plain (or_introl eq_refl))).
    + vm_compute. discriminate.
    + vm_compute. discriminate.
  - apply (proj2 (aes_Decrypt_partial_blocks (go := toy.go) (spec := toy_spec)
                    toy.key16 toy.key16 (or_introl eq_refl))).
    reflexivity.
Defined.


(** ** [token] *)

Lemma Cut_inverse (s before after : string) (sep : ascii) :
  strings.Cut s sep = Some (before, after) ->
  s = (before ++ String sep after)%string /\ strings.Contains before sep = false.
Proof.
  revert before. induction s as [|x s IH]; simpl; intros before H; [discriminate|].
  destruct (Ascii.eqb_spec x sep) as [->|Hx].
  - injection H as <- <-. now split.
  - destruct (strings.Cut s sep) as [[b a]|]; [|discriminate].
    injection H as <- <-. destruct (IH b eq_refl) as [-> Hb].
    split; [reflexivity|].
    rewrite Contains_cons; [exact Hb|]. now apply Ascii.eqb_neq.
Qed.

Lemma len_two {A : Type} (l : list A) :
  len l = 2 -> exists a b, l = [a; b].
Proof.
  unfold len. destruct l as [|a [|b [|c l]]]; simpl; intros H; try lia. eauto.
Qed.

Lemma len_three {A : Type} (l : list A) :
  len l = 3 -> exists a b c, l = [a; b; c].
Proof.
  unfold len. destruct l as [|a [|b [|c [|d l]]]]; simpl; intros H; try lia. eauto.
Qed.

Section TokenMore.
Context {go : GoStdlib} {spec : GoStdlibSpec go}.

Import token.

(** Every outcome of [Validate] but the one error comes after the
    signature check has passed. *)
Lemma Validate_opened (v : validator.t) (kind tok : string) :
  validator.Validate v kind tok <> Error validator.errToken ->
  exists s c signature cipher,
    strings.SplitN tok "." 2 = [s; c]
    /\ base64_RawURLEncoding_DecodeString s = Some signature
    /\ base64_RawURLEncoding_DecodeString c = Some cipher
    /\ sig.ValidateSHA256 (validator.signingKey v) cipher signature = true.
Proof.
  unfold validator.Validate. intros H.
  destruct (tok =? "")%string; [contradiction|].
  destruct (Z.eqb_spec (len (strings.SplitN tok "." 2)) 2) as [E|E];
    cbn [negb] in H; [|contradiction].
  destruct (len_two _ E) as (s & c & Hsplit). rewrite Hsplit in H. cbn [nth] in H.
  destruct (base64_RawURLEncoding_DecodeString s) as [signature|] eqn:Hs; [|contradiction].
  destruct (base64_RawURLEncoding_DecodeString c) as [cipher|] eqn:Hc; [|contradiction].
  destruct (sig.ValidateSHA256 (validator.signingKey v) cipher signature) eqn:Hsig;
    cbn [negb] in H; [|contradiction].
  exists s, c, signature, cipher. repeat (split; [assumption|]). exact Hsig.
Qed.

(** X10.  Nothing reaches decryption without a valid signature: whenever
    [Validate] does anything but return its one error, so whenever it
    accepts and whenever it panics, the token has two base64 parts, the
    first of which is the HMAC of the second under the signing key. *)
Theorem token_signature_checked_first (v : validator.t) (kind tok : string) :
  validator.Validate v kind tok <> Error validator.errToken ->
  exists s c cipher,
    strings.SplitN tok "." 2 = [s; c]
    /\ base64_RawURLEncoding_DecodeString c = Some cipher
    /\ base64_RawURLEncoding_DecodeString s
       = Some (sig.ComputeSHA256 (validator.signingKey v) cipher).
Proof.
  intros H.
  destruct (Validate_opened v kind tok H) as (s & c & signature & cipher & Hsplit & Hs & Hc & Hsig).
  apply Hashes_true_iff in Hsig. subst signature.
  exists s, c, cipher. auto.
Qed.

(** X11.  What [Validate] accepts.  It returns [data] exactly when the
    token has two base64 parts, the first the HMAC of the second, the
    second decrypts to a record of three pieces, the first piece is the
    expected kind, the third parses as an instant the clock is not after,
    and the second is the base64 of [data]. *)
Theorem token_Validate_accepts_iff (v : validator.t) (kind tok : string) (data : list byte) :
  validator.Validate v kind tok = Value data
  <-> exists s c cipher plain payload stamp expiry,
        strings.SplitN tok "." 2 = [s; c]
        /\ base64_RawURLEncoding_DecodeString c = Some cipher
        /\ base64_RawURLEncoding_DecodeString s
           = Some (sig.ComputeSHA256 (validator.signingKey v) cipher)
        /\ aes.Decrypt (validator.encryptionKey v) cipher = Value plain
        /\ strings.SplitN (string_of_list_byte plain) "." 3 = [kind; payload; stamp]
        /\ time_Parse_RFC3339 stamp = Some expiry
        /\ validator.now v <= expiry
        /\ base64_RawURLEncoding_DecodeString payload = Some data.
Proof.
  split.
  - intros H.
    assert (Hne : validator.Validate v kind tok <> Error validator.errToken)
      by (rewrite H; discriminate).
    destruct (Validate_opened v kind tok Hne)
      as (s & c & signature & cipher & Hsplit & Hs & Hc & Hsig).
    destruct (aes.Decrypt (validator.encryptionKey v) cipher) as [plain| |] eqn:Hdec.
    + rewrite (Validate_after_decrypt v kind tok s c signature cipher plain
                 Hsplit Hs Hc Hsig Hdec) in H. cbv zeta in H.
      destruct (Z.eqb_spec (len (strings.SplitN (string_of_list_byte plain) "." 3)) 3)
        as [E|E]; cbn [negb] in H; [|discriminate].
      destruct (len_three _ E) as (k & payload & stamp & Hrec).
      rewrite Hrec in H. cbn [nth] in H.
      destruct (String.eqb_spec kind k) as [<-|]; cbn [negb] in H; [|discriminate].
      destruct (time_Parse_RFC3339 stamp) as [expiry|] eqn:Hstamp; [|discriminate].
      unfold time.After, time.UTC in H.
      destruct (Z.ltb_spec expiry (validator.now v)); [discriminate|].
      destruct (base64_RawURLEncoding_DecodeString payload) as [d|] eqn:Hd; [|discriminate].
      apply Value_inj in H. subst d.
      apply Hashes_true_iff in Hsig. subst signature.
      exists s, c, cipher, plain, payload, stamp, expiry. repeat split; assumption.
    + exfalso. revert H. unfold validator.Validate.
      destruct (String.eqb_spec tok "") as [->|_]; [discriminate|].
      rewrite Hsplit.
      cbn [len List.length Z.of_nat Z.eqb negb nth Pos.of_succ_nat Pos.succ Pos.eqb].
      rewrite Hs, Hc, Hsig, Hdec. discriminate.
    + exfalso. revert H. unfold validator.Validate.
      destruct (String.eqb_spec tok "") as [->|_]; [discriminate|].
      rewrite Hsplit.
      cbn [len List.length Z.of_nat Z.eqb negb nth Pos.of_succ_nat Pos.succ Pos.eqb].
      rewrite Hs, Hc, Hsig, Hdec. discriminate.
  - intros (s & c & cipher & plain & payload & stamp & expiry
            & Hsplit & Hc & Hs & Hdec & Hrec & Hstamp & Hnow & Hdata).
    rewrite (Validate_after_decrypt v kind tok s c _ cipher plain Hsplit Hs Hc
               (Hashes_refl _) Hdec).
    rewrite Hrec.
    cbn [len List.length Z.of_nat Z.eqb negb nth Pos.of_succ_nat Pos.succ Pos.eqb].
    rewrite String.eqb_refl, Hstamp, Hdata. cbn [negb].
    unfold time.After, time.UTC.
    destruct (Z.ltb_spec expiry (validator.now v)); [lia | reflexivity].
Qed.

(** X12.  A token generated for a kind with a ['.'] in it is of no use:
    under the keys it was generated with, [Validate] rejects it for every
    expected kind, the kind it was generated for included, at every
    time. *)
Theorem token_dotted_kind_unusable (g : Generator.t) (v : validator.t)
  (kindG kind : string) (data : list byte) (ttl : time.Duration) (tok : string) :
  validator.encryptionKey v = Generator.encryptionKey g ->
  validator.signingKey v = Generator.signingKey g ->
  strings.Contains kindG "." = true ->
  Generator.Generate g kindG data ttl = Value tok ->
  validator.Validate v kind tok = Error validator.errToken.
Proof.
  intros Hek Hsk Hdot Hgen.
  rewrite (Validate_generated g v kindG kind tok data ttl Hek Hsk Hgen).
  unfold plainText, strings.Contains in *.
  destruct (strings.Cut kindG ".") as [[first rest]|] eqn:Hcut; [|discriminate].
  destruct (SplitN_3_dotted_kind kindG first rest
              (base64_RawURLEncoding_EncodeToString data)
              (time_Format_RFC3339 (time.Add (time.UTC (Generator.now g)) ttl)) Hcut)
    as (second & third & ->).
  cbn [len List.length Z.of_nat Z.eqb negb nth Pos.of_succ_nat Pos.succ Pos.eqb].
  destruct (kind =? first)%string; cbn [negb]; [|reflexivity].
  now rewrite time_Parse_dotted_tail.
Qed.

(** X13.  The constructors refuse only [nil] keys.  With an encryption key
    that is not 16, 24 or 32 bytes long, the generator they build returns
    an error that states the key's length for every request, and the
    validator returns its one error for every token: it accepts nothing,
    and does not panic. *)
Theorem token_invalid_encryption_key (now : time.Time) (encryptionKey signingKey : list byte)
  (kind : string) (data : list byte) (ttl : time.Duration) (tok : string) :
  ~ aesKeySize encryptionKey ->
  (g <- Generator.NewGenerator now (Some encryptionKey) (Some signingKey) ;;
   Generator.Generate g kind data ttl)
  = Error ("could not generate token: encryption key must be either 16, 24 or 32 bytes long. Current key length: "
           ++ itoa (len encryptionKey))
  /\ (v <- validator.NewValidator (Some now) (Some encryptionKey) (Some signingKey) ;;
      validator.Validate v kind tok)
     = Error validator.errToken.
Proof.
  intros Hkey. split.
  - cbn [bind Generator.NewGenerator]. unfold Generator.Generate.
    cbn [Generator.encryptionKey].
    unfold aes.Encrypt. now rewrite (aesKeySize_check_true _ Hkey).
  - cbn [bind validator.NewValidator]. unfold validator.Validate.
    cbn [validator.encryptionKey validator.signingKey].
    destruct (tok =? "")%string; [reflexivity|].
    destruct (negb (len (strings.SplitN tok "." 2) =? 2)); [reflexivity|].
    destruct (base64_RawURLEncoding_DecodeString (nth 0 (strings.SplitN tok "." 2) ""%string));
      [|reflexivity].
    destruct (base64_RawURLEncoding_DecodeString (nth 1 (strings.SplitN tok "." 2) ""%string));
      [|reflexivity].
    destruct (negb (sig.ValidateSHA256 signingKey l0 l)); [reflexivity|].
    unfold aes.Decrypt. now rewrite (aesKeySize_check_true _ Hkey).
Qed.

(** A generated token of a kind without ['.'] is accepted, with its
    payload, until the whole second of its expiry. *)
Lemma Validate_generated_value (g : Generator.t) (v : validator.t) (kind : string)
  (data : list byte) (ttl : time.Duration) (tok : string) :
  validator.encryptionKey v = Generator.encryptionKey g ->
  validator.signingKey v = Generator.signingKey g ->
  strings.Contains kind "." = false ->
  time.inRFC3339Range (time.Add (Generator.now g) ttl) ->
  validator.now v <= time.truncateToSecond (time.Add (Generator.now g) ttl) ->
  Generator.Generate g kind data ttl = Value tok ->
  validator.Validate v kind tok = Value data.
Proof.
  intros Hek Hsk Hkind Hrange Hnow Hgen.
  rewrite (Validate_generated g v kind kind tok data ttl Hek Hsk Hgen).
  unfold plainText.
  rewrite (SplitN_3_join _ _ _ Hkind (RawURLEncoding_alphabet data)).
  cbn [len List.length Z.of_nat Z.eqb negb nth Pos.of_succ_nat Pos.succ Pos.eqb].
  rewrite String.eqb_refl. cbn [negb].
  unfold time.UTC. rewrite (time_Parse_Format _ Hrange).
  unfold time.After.
  destruct (Z.ltb_spec (time.truncateToSecond (time.Add (Generator.now g) ttl))
              (validator.now v)); [lia|].
  now rewrite RawURLEncoding_Decode_Encode.
Qed.

(** X14.  The round trip of the package's test, for the exported structs:
    a generator and a validator built by [NewGenerator] and [NewValidator]
    from the same keys, the encryption key of a valid size.  For a kind
    without ['.'], when the entropy source answers, the expiry lies in the
    years 0000 to 9999 and the validator's clock is not after its whole
    second, what [Generate] returns [Validate] accepts, with the payload. *)
Theorem token_exported_roundtrip (nowG nowV : time.Time)
  (encryptionKey signingKey : list byte) (kind : string) (data : list byte)
  (ttl : time.Duration) (filled : nat -> byte) :
  aesKeySize encryptionKey ->
  rand_Read = Some filled ->
  strings.Contains kind "." = false ->
  time.inRFC3339Range (time.Add nowG ttl) ->
  nowV <= time.truncateToSecond (time.Add nowG ttl) ->
  exists g V tok,
    Generator.NewGenerator nowG (Some encryptionKey) (Some signingKey) = Value g
    /\ Validator.NewValidator nowV (Some encryptionKey) (Some signingKey) = Value V
    /\ Generator.Generate g kind data ttl = Value tok
    /\ Validator.Validate V kind tok = Value data.
Proof.
  intros Hkey Hr Hkind Hrange Hnow.
  eexists. eexists.
  set (g := {| Generator.now := nowG; Generator.encryptionKey := encryptionKey;
               Generator.signingKey := signingKey |}).
  destruct (Generate_value g kind data ttl filled Hkey Hr) as [tok Hgen].
  exists tok. split; [reflexivity|]. split; [reflexivity|]. split; [exact Hgen|].
  pose proof (Validate_generated_value g
                {| validator.now := nowV; validator.encryptionKey := encryptionKey;
                   validator.signingKey := signingKey |}
                kind data ttl tok eq_refl eq_refl Hkind Hrange Hnow Hgen) as Hv.
  rewrite (Validate_same_verdict nowV encryptionKey signingKey kind tok) in Hv.
  destruct (Validator.Validate _ kind tok); [congruence | discriminate | discriminate].
Qed.

End TokenMore.

Lemma token_signature_checked_first_witness :
  exists s c cipher,
    strings.SplitN toy.tok "." 2 = [s; c]
    /\ toy.DecodeString c = Some cipher
    /\ toy.DecodeString s = Some (sig.ComputeSHA256 (go := toy.go) toy.signKey cipher).
Proof.
  apply (token_signature_checked_first (go := toy.go) (toy.validatorAt toy.clock) "1" toy.tok).
  vm_compute. discriminate.
Defined.

Lemma token_Validate_accepts_iff_witness :
  exists s c cipher plain payload stamp expiry,
    strings.SplitN toy.tok "." 2 = [s; c]
    /\ toy.DecodeString c = Some cipher
    /\ toy.DecodeString s = Some (sig.ComputeSHA256 (go := toy.go) toy.signKey cipher)
    /\ aes.Decrypt (go := toy.go) toy.key16 cipher = Value plain
    /\ strings.SplitN (string_of_list_byte plain) "." 3 = ["1"%string; payload; stamp]
    /\ toy.Parse_RFC3339 stamp = Some expiry
    /\ toy.clock <= expiry
    /\ toy.DecodeString payload = Some toy.payload.
Proof.
  apply (proj1 (token_Validate_accepts_iff (go := toy.go) (toy.validatorAt toy.clock)
                  "1" toy.tok toy.payload)).
  vm_compute. reflexivity.
Defined.

Lemma token_dotted_kind_unusable_witness :
  token.validator.Validate (go := toy.go) (toy.validatorAt toy.clock) "a" sample.tokDotted
  = Error token.validator.errToken.
Proof.
  apply (token_dotted_kind_unusable (go := toy.go) (spec := toy_spec) toy.generator
           (toy.validatorAt toy.clock) "a.b" "a" toy.payload toy.ttl sample.tokDotted).
  - reflexivity.
  - reflexivity.
  - reflexivity.
  - vm_compute. reflexivity.
Defined.

Lemma token_invalid_encryption_key_witness :
  (g <- token.Generator.NewGenerator toy.clock (Some sample.key5) (Some toy.signKey) ;;
   token.Generator.Generate (go := toy.go) g "1" toy.payload toy.ttl)
  = Error ("could not generate token: encryption key must be either 16, 24 or 32 bytes long. Current key length: "
           ++ itoa (len sample.key5))
  /\ (v <- token.validator.NewValidator (Some toy.clock) (Some sample.key5) (Some toy.signKey) ;;
      token.validator.Validate (go := toy.go) v "1" toy.tok)
     = Error token.validator.errToken.
Proof.
  apply (token_invalid_encryption_key (go := toy.go) toy.clock sample.key5 toy.signKey
           "1" toy.payload toy.ttl toy.tok).
  unfold aesKeySize. vm_compute. intros [H|[H|H]]; discriminate H.
Defined.

Lemma token_exported_roundtrip_witness :
  exists g V tok,
    token.Generator.NewGenerator toy.clock (Some toy.key16) (Some toy.signKey) = Value g
    /\ token.Validator.NewValidator toy.clock (Some toy.key16) (Some toy.signKey) = Value V
    /\ token.Generator.Generate (go := toy.go) g "1" toy.payload toy.ttl = Value tok
    /\ token.Validator.Validate (go := toy.go) V "1" tok = Value toy.payload.
Proof.
  apply (token_exported_roundtrip (go := toy.go) (spec := toy_spec) toy.clock toy.clock
           toy.key16 toy.signKey "1" toy.payload toy.ttl sample.filled).
  - left. reflexivity.
  - reflexivity.
  - reflexivity.
  - unfold time.inRFC3339Range. vm_compute. split; [discriminate | reflexivity].
  - vm_compute. discriminate.
Defined.

(** ** [pwd]: stored hashes and strategies *)

Lemma splitLoop_nonempty (n : nat) (s : string) (sep : ascii) :
  strings.splitLoop n s sep <> [].
Proof.
  destruct n as [|n]; simpl; [discriminate|].
  destruct (strings.Cut s sep) as [[before after]|]; discriminate.
Qed.

Lemma splitLoop_one (n : nat) (s a : string) (sep : ascii) :
  strings.splitLoop n s sep = [a] -> s = a.
Proof.
  destruct n as [|n]; simpl; [now intros [= ->]|].
  destruct (strings.Cut s sep) as [[before after]|]; [|now intros [= ->]].
  intros [= _ H]. now apply splitLoop_nonempty in H.
Qed.

(** A split into more than one piece starts with a cut. *)
Lemma splitLoop_cons (n : nat) (s a b : string) (l : list string) (sep : ascii) :
  strings.splitLoop n s sep = a :: b :: l ->
  exists n' rest,
    n = S n' /\ s = (a ++ String sep rest)%string
    /\ strings.Contains a sep = false
    /\ strings.splitLoop n' rest sep = b :: l.
Proof.
  destruct n as [|n]; simpl; [discriminate|].
  destruct (strings.Cut s sep) as [[before after]|] eqn:Hcut; [|discriminate].
  intros [= -> H]. destruct (Cut_inverse s a after sep Hcut) as [Hs Ha].
  exists n, after. auto.
Qed.

Lemma splitLoop_three (n : nat) (s a b c : string) (sep : ascii) :
  strings.splitLoop n s sep = [a; b; c] ->
  s = (a ++ String sep (b ++ String sep c))%string
  /\ strings.Contains a sep = false /\ strings.Contains b sep = false.
Proof.
  intros H.
  destruct (splitLoop_cons n s a b [c] sep H) as (n1 & r1 & -> & -> & Ha & H1).
  destruct (splitLoop_cons n1 r1 b c [] sep H1) as (n2 & r2 & -> & -> & Hb & H2).
  apply splitLoop_one in H2. subst r2. auto.
Qed.

Lemma splitLoop_four (n : nat) (s a b c d : string) (sep : ascii) :
  strings.splitLoop n s sep = [a; b; c; d] ->
  s = (a ++ String sep (b ++ String sep (c ++ String sep d)))%string
  /\ strings.Contains a sep = false /\ strings.Contains b sep = false
  /\ strings.Contains c sep = false.
Proof.
  intros H.
  destruct (splitLoop_cons n s a b [c; d] sep H) as (n1 & r1 & -> & -> & Ha & H1).
  destruct (splitLoop_three n1 r1 b c d sep H1) as (-> & Hb & Hc). auto.
Qed.

Lemma len_four {A : Type} (l : list A) :
  len l = 4 -> exists a b c d, l = [a; b; c; d].
Proof.
  unfold len. destruct l as [|a [|b [|c [|d [|e l]]]]]; simpl; intros H; try lia. eauto.
Qed.

Lemma prefix_app (p s rest : string) :
  String.prefix p s = true -> String.prefix p (s ++ rest) = true.
Proof.
  revert s. induction p as [|x p IH]; intros s H;
    [now destruct (s ++ rest)%string|].
  destruct s as [|y s]; [discriminate|]. simpl in *.
  destruct (ascii_dec x y); [now apply IH | discriminate].
Qed.

(** A prefix without the separator lies before the first separator. *)
Lemma prefix_before_sep (p a rest : string) (sep : ascii) :
  strings.Contains p sep = false ->
  String.prefix p (a ++ String sep rest) = true -> String.prefix p a = true.
Proof.
  revert a. induction p as [|x p IH]; intros a Hp H; [now destruct a|].
  assert (Hx : Ascii.eqb x sep = false /\ strings.Contains p sep = false).
  { unfold strings.Contains in *. simpl in Hp.
    destruct (Ascii.eqb x sep); [discriminate|]. split; [reflexivity|].
    now destruct (strings.Cut p sep) as [[b c]|]. }
  destruct Hx as [Hx Hp'].
  destruct a as [|y a]; simpl in *.
  - destruct (ascii_dec x sep) as [->|]; [|discriminate].
    now rewrite Ascii.eqb_refl in Hx.
  - destruct (ascii_dec x y); [now apply IH | discriminate].
Qed.

Section PasswordMore.
Context {go : GoStdlib} {spec : GoStdlibSpec go}.

(** [parsePasswordHash] returns a hash or an error that quotes its
    input; it does not panic, and it returns no [nil] hash without error. *)
Lemma parsePasswordHash_outcome (stored : string) :
  (exists pwdh, pwd.parsePasswordHash stored = Value (Some pwdh))
  \/ pwd.parsePasswordHash stored
     = Error ("string is not a valid passwordHash: " ++ stored).
Proof.
  unfold pwd.parsePasswordHash.
  destruct (stored =? "")%string; [now right|].
  destruct (negb (len (strings.Split stored ".") =? 3)); [now right|].
  destruct (base64_StdEncoding_DecodeString _); [|now right].
  destruct (base64_StdEncoding_DecodeString _); [|now right].
  left. eauto.
Qed.

(** X15.  [parsePasswordHash] and [String] undo each other.  A stored hash
    that parses is exactly its three parts joined by ['.']: the strategy,
    which has no ['.'], and the base64 texts of the salt and of the hash.
    And the text [String] gives for a strategy without ['.'], a salt and a
    hash parses back to them. *)
Theorem pwd_parse_String_inverse (stored strategy : string) (salt hash : list byte) :
  (forall pwdh,
     pwd.parsePasswordHash stored = Value (Some pwdh) ->
     pwd.String pwdh = stored
     /\ strings.Contains (pwd.strategy pwdh) "." = false
     /\ base64_StdEncoding_DecodeString (pwd.base64Salt pwdh) = Some (pwd.salt pwdh)
     /\ base64_StdEncoding_DecodeString (pwd.base64Hash pwdh) = Some (pwd.hash pwdh))
  /\ (strings.Contains strategy "." = false ->
      pwd.parsePasswordHash
        (strategy ++ "." ++ base64_StdEncoding_EncodeToString salt ++ "."
         ++ base64_StdEncoding_EncodeToString hash)
      = Value (Some {| pwd.salt := salt; pwd.hash := hash; pwd.strategy := strategy;
                       pwd.base64Salt := base64_StdEncoding_EncodeToString salt;
                       pwd.base64Hash := base64_StdEncoding_EncodeToString hash |})).
Proof.
  split.
  - intros pwdh. unfold pwd.parsePasswordHash.
    destruct (stored =? "")%string; [discriminate|].
    destruct (Z.eqb_spec (len (strings.Split stored ".")) 3) as [E|E];
      cbn [negb]; [|discriminate].
    destruct (len_three _ E) as (a & b & c & Hsplit). rewrite Hsplit. cbn [nth].
    destruct (base64_StdEncoding_DecodeString b) as [sl|] eqn:Hb; [|discriminate].
    destruct (base64_StdEncoding_DecodeString c) as [hs|] eqn:Hc; [|discriminate].
    intros H. apply Value_inj in H. injection H as <-.
    unfold pwd.String. cbn [pwd.strategy pwd.base64Salt pwd.base64Hash pwd.salt pwd.hash].
    unfold strings.Split, strings.SplitN in Hsplit. cbn [Z.eqb Z.ltb Z.compare] in Hsplit.
    destruct (splitLoop_three _ _ _ _ _ _ Hsplit) as (Hs & Ha & _).
    repeat split; auto.
  - intros Hstrategy. now apply (parsePasswordHash_String strategy salt hash).
Qed.

(** X16.  The strategies [createPasswordHashingStrategy] resolves are the
    texts [family/hmacsha256/length/iterations] whose family starts with
    "pbkdf2" and whose family and length have no ['/'] (the iterations may
    have any).  Every other text is an error: the function does not panic
    and returns no [nil] function without error. *)
Theorem pwd_strategy_resolves_iff (strategy : string) :
  ((exists computeHash,
      pwd.createPasswordHashingStrategy strategy = Value (Some computeHash))
   <-> exists family encHashLength encIterations,
         strategy = (family ++ "/hmacsha256/" ++ encHashLength ++ "/" ++ encIterations)%string
         /\ strings.HasPrefix family "pbkdf2" = true
         /\ strings.Contains family "/" = false
         /\ strings.Contains encHashLength "/" = false)
  /\ ((exists computeHash,
         pwd.createPasswordHashingStrategy strategy = Value (Some computeHash))
      \/ pwd.createPasswordHashingStrategy strategy
         = Error "invalid strategy, cannot create password hashing function"
      \/ pwd.createPasswordHashingStrategy strategy
         = Error "invalid strategy, cannot create PBKDF2 hashing function").
Proof.
  split; [split|].
  - intros [computeHash H]. revert H.
    unfold pwd.createPasswordHashingStrategy, pwd.supportedStrategies.
    destruct (strategy =? "")%string; [discriminate|].
    destruct (strings.HasPrefix strategy "pbkdf2") eqn:Hprefix; [|discriminate].
    unfold pwd.createPbkdf2Fn.
    destruct (Z.eqb_spec (len (strings.SplitN strategy "/" 4)) 4) as [E|E];
      cbn [negb]; [|discriminate].
    destruct (len_four _ E) as (a & b & c & d & Hsplit). rewrite Hsplit. cbn [nth].
    destruct (String.eqb_spec b "hmacsha256") as [->|]; cbn [negb]; [|discriminate].
    intros _. unfold strings.SplitN in Hsplit. cbn [Z.eqb Z.ltb Z.compare] in Hsplit.
    destruct (splitLoop_four _ _ _ _ _ _ _ Hsplit) as (Hs & Ha & _ & Hc).
    exists a, c, d. split; [exact Hs|]. split; [|auto].
    unfold strings.HasPrefix in *. rewrite Hs in Hprefix.
    eapply (prefix_before_sep "pbkdf2" a); [|exact Hprefix]. reflexivity.
  - intros (family & hl & it & -> & Hprefix & Hfamily & Hhl).
    unfold pwd.createPasswordHashingStrategy, pwd.supportedStrategies.
    change (family ++ "/hmacsha256/" ++ hl ++ "/" ++ it)%string
      with (family ++ String "/" ("hmacsha256" ++ String "/" (hl ++ String "/" it)))%string.
    rewrite join_nonempty.
    unfold strings.HasPrefix in *. rewrite (prefix_app _ _ _ Hprefix).
    unfold pwd.createPbkdf2Fn, strings.SplitN.
    cbn [Z.eqb Z.ltb Z.compare]. change (Z.to_nat (4 - 1)) with 3%nat.
    cbn [strings.splitLoop].
    rewrite (Cut_join family _ "/" Hfamily).
    rewrite (Cut_join "hmacsha256" _ "/" eq_refl).
    rewrite (Cut_join hl it "/" Hhl).
    cbn [len List.length Z.of_nat Z.eqb negb nth Pos.of_succ_nat Pos.succ Pos.eqb].
    rewrite String.eqb_refl. cbn [negb]. eauto.
  - unfold pwd.createPasswordHashingStrategy, pwd.supportedStrategies.
    destruct (strategy =? "")%string; [auto|].
    destruct (strings.HasPrefix strategy "pbkdf2"); [|auto].
    unfold pwd.createPbkdf2Fn.
    destruct (negb (len (strings.SplitN strategy "/" 4) =? 4)); [auto|].
    destruct (negb (nth 1 (strings.SplitN strategy "/" 4) "" =? "hmacsha256")%string);
      [auto|].
    left. eauto.
Qed.

(** X17.  The round trip of the exported constructors.  [NewHasher] does
    not panic: the default strategy resolves.  For a non-empty password,
    when the entropy source answers and [pbkdf2.Key] returns, [ComputeHash]
    returns the default strategy, the base64 of the 32 bytes of salt drawn
    and the base64 of the key derived, joined by ['.'], and
    [ValidatePassword] of [NewValidator] finds that the password matches it,
    with no upgrade needed. *)
Theorem pwd_exported_roundtrip (password : string) (filled : nat -> byte)
  (hash : list byte) :
  password <> ""%string ->
  rand_Read = Some filled ->
  pbkdf2_Key (list_byte_of_string password) (List.map filled (List.seq 0 32))
    (base62_DecodeToInt "G8") (base62_DecodeToInt "12") sha256_New = Some hash ->
  exists h,
    pwd.NewHasher = Value h
    /\ pwd.Hasher.ComputeHash h password
       = Value ("pbkdf2/hmacsha256/12/G8."
                ++ base64_StdEncoding_EncodeToString (List.map filled (List.seq 0 32))
                ++ "." ++ base64_StdEncoding_EncodeToString hash)%string
    /\ pwd.Validator.ValidatePassword pwd.NewValidator password
         ("pbkdf2/hmacsha256/12/G8."
          ++ base64_StdEncoding_EncodeToString (List.map filled (List.seq 0 32))
          ++ "." ++ base64_StdEncoding_EncodeToString hash)%string
       = Value (true, false).
Proof.
  intros Hpassword Hr Hkey.
  exists {| pwd.Hasher.generateSalt := Some rng.GenerateBytes;
            pwd.Hasher.computeHash :=
              Some (fun password salt =>
                      match pbkdf2_Key password salt (base62_DecodeToInt "G8")
                              (base62_DecodeToInt "12") sha256_New with
                      | Some key => Value key
                      | None => Panic
                      end);
            pwd.Hasher.strategy := pwd.defaultStrategy |}.
  split; [reflexivity|].
  set (salt := List.map filled (List.seq 0 32)) in *.
  assert (Hsalt : rng.GenerateBytes 32 = Value salt).
  { unfold rng.GenerateBytes. rewrite Hr. reflexivity. }
  split.
  - unfold pwd.Hasher.ComputeHash, pwd.Hasher.computePasswordHash.
    cbn [pwd.Hasher.generateSalt pwd.Hasher.computeHash pwd.Hasher.strategy].
    rewrite Hsalt. cbn [bind]. rewrite Hkey. reflexivity.
  - pose proof (ValidatePassword_value pwd.NewValidator pwd.createPasswordHashingStrategy
                  password _ _
                  (fun password salt =>
                     match pbkdf2_Key password salt (base62_DecodeToInt "G8")
                             (base62_DecodeToInt "12") sha256_New with
                     | Some key => Value key
                     | None => Panic
                     end)
                  hash eq_refl eq_refl Hpassword
                  (parsePasswordHash_String pwd.defaultStrategy salt hash eq_refl)
                  eq_refl) as Hv.
    cbn [pwd.hash pwd.strategy pwd.salt pwd.NewValidator pwd.newValidator
         pwd.Validator.defaultStrategy] in Hv.
    rewrite Hkey, Hashes_refl, String.eqb_refl in Hv.
    exact (Hv eq_refl).
Qed.

(** X18.  A stored hash of another scheme is a mismatch, not a failure:
    when the text before the first ['.'] of the stored hash does not start
    with "pbkdf2", [ValidatePassword] of [NewValidator] returns [(false,
    false)] for every password, whatever follows. *)
Theorem pwd_foreign_strategy_mismatch (password stored : string) :
  strings.HasPrefix (nth 0 (strings.Split stored ".") ""%string) "pbkdf2" = false ->
  pwd.Validator.ValidatePassword pwd.NewValidator password stored = Value (false, false).
Proof.
  intros Hforeign.
  unfold pwd.Validator.ValidatePassword, pwd.Validator.validatePassword.
  cbn [pwd.NewValidator pwd.newValidator pwd.Validator.parseHash
       pwd.Validator.computeHashFactory].
  unfold pwd.parsePasswordHash.
  destruct (stored =? "")%string; [reflexivity|].
  destruct (negb (len (strings.Split stored ".") =? 3)); [reflexivity|].
  destruct (base64_StdEncoding_DecodeString _); [|reflexivity].
  destruct (base64_StdEncoding_DecodeString _); [|reflexivity].
  destruct (password =? "")%string; [reflexivity|].
  cbn [pwd.strategy].
  unfold pwd.createPasswordHashingStrategy, pwd.supportedStrategies.
  destruct (nth 0 (strings.Split stored ".") "" =? "")%string; [reflexivity|].
  now rewrite Hforeign.
Qed.

(** X19.  The empty password matches nothing: [ValidatePassword] of
    [NewValidator] returns [(false, false)] for it whatever the stored
    hash, that of the empty password included, without computing a hash. *)
Theorem pwd_empty_password_never_matches (stored : string) :
  pwd.Validator.ValidatePassword pwd.NewValidator "" stored = Value (false, false).
Proof.
  unfold pwd.Validator.ValidatePassword, pwd.Validator.validatePassword.
  cbn [pwd.NewValidator pwd.newValidator pwd.Validator.parseHash
       pwd.Validator.computeHashFactory].
  destruct (parsePasswordHash_outcome stored) as [[pwdh ->]| ->]; reflexivity.
Qed.

(** X20.  [ValidatePassword] of [NewValidator] has no error result, and it
    panics only when [pbkdf2.Key] does: on the password, the salt of the
    stored hash, and the key length and iteration count its strategy text
    decodes to, which no check bounds. *)
Theorem pwd_ValidatePassword_panics_only_in_pbkdf2 (password stored : string) :
  (exists ok needsUpgrade,
     pwd.Validator.ValidatePassword pwd.NewValidator password stored
     = Value (ok, needsUpgrade))
  \/ (pwd.Validator.ValidatePassword pwd.NewValidator password stored = Panic
      /\ exists pwdh encHashLength encIterations,
           pwd.parsePasswordHash stored = Value (Some pwdh)
           /\ strings.SplitN (pwd.strategy pwdh) "/" 4
              = [nth 0 (strings.SplitN (pwd.strategy pwdh) "/" 4) ""%string;
                 "hmacsha256"%string; encHashLength; encIterations]
           /\ pbkdf2_Key (list_byte_of_string password) (pwd.salt pwdh)
                (base62_DecodeToInt encIterations) (base62_DecodeToInt encHashLength)
                sha256_New = None).
Proof.
  unfold pwd.Validator.ValidatePassword, pwd.Validator.validatePassword.
  cbn [pwd.NewValidator pwd.newValidator pwd.Validator.parseHash
       pwd.Validator.computeHashFactory pwd.Validator.defaultStrategy].
  destruct (parsePasswordHash_outcome stored) as [[pwdh Hparse]|Hparse]; rewrite Hparse;
    [|left; eauto].
  destruct (password =? "")%string; [left; eauto|].
  unfold pwd.createPasswordHashingStrategy, pwd.supportedStrategies.
  destruct (pwd.strategy pwdh =? "")%string; [left; eauto|].
  destruct (strings.HasPrefix (pwd.strategy pwdh) "pbkdf2"); [|left; eauto].
  unfold pwd.createPbkdf2Fn.
  destruct (Z.eqb_spec (len (strings.SplitN (pwd.strategy pwdh) "/" 4)) 4) as [E|E];
    cbn [negb]; [|left; eauto].
  destruct (len_four _ E) as (a & b & c & d & Hsplit). rewrite Hsplit. cbn [nth].
  destruct (String.eqb_spec b "hmacsha256") as [->|]; cbn [negb]; [|left; eauto].
  destruct (pbkdf2_Key _ _ _ _ _) as [key|] eqn:Hkey; cbn [bind].
  - left. eauto.
  - right. split; [reflexivity|]. exists pwdh, c, d.
    split; [reflexivity|]. split; [now rewrite Hsplit | exact Hkey].
Qed.

End PasswordMore.

Lemma pwd_parse_String_inverse_witness :
  (forall pwdh,
     pwd.parsePasswordHash (go := toy.go) toy.storedOld = Value (Some pwdh) ->
     pwd.String pwdh = toy.storedOld
     /\ strings.Contains (pwd.strategy pwdh) "." = false
     /\ toy.DecodeString (pwd.base64Salt pwdh) = Some (pwd.salt pwdh)
     /\ toy.DecodeString (pwd.base64Hash pwdh) = Some (pwd.hash pwdh))
  /\ pwd.parsePasswordHash (go := toy.go)
       (toy.oldStrategy ++ "." ++ toy.EncodeToString toy.key16 ++ "."
        ++ toy.EncodeToString sample.key5)
     = Value (Some {| pwd.salt := toy.key16; pwd.hash := sample.key5;
                      pwd.strategy := toy.oldStrategy;
                      pwd.base64Salt := toy.EncodeToString toy.key16;
                      pwd.base64Hash := toy.EncodeToString sample.key5 |}).
Proof.
  destruct (pwd_parse_String_inverse (go := toy.go) (spec := toy_spec) toy.storedOld
              toy.oldStrategy toy.key16 sample.key5) as [Hparse Hstring].
  split; [exact Hparse|]. apply Hstring. reflexivity.
Defined.

Lemma pwd_strategy_resolves_iff_witness :
  (exists computeHash,
     pwd.createPasswordHashingStrategy (go := toy.go) "pbkdf2-sha512/hmacsha256/A/9/x"
     = Value (Some computeHash))
  /\ pwd.createPasswordHashingStrategy (go := toy.go) "unknown"
     = Error "invalid strategy, cannot create password hashing function".
Proof.
  split.
  - apply (proj2 (proj1 (pwd_strategy_resolves_iff (go := toy.go)
                           "pbkdf2-sha512/hmacsha256/A/9/x"))).
    exists "pbkdf2-sha512"%string, "A"%string, "9/x"%string.
    repeat split; reflexivity.
  - destruct (proj2 (pwd_strategy_resolves_iff (go := toy.go) "unknown"))
      as [[computeHash H]|[H|H]]; [discriminate H | exact H | discriminate H].
Defined.

Lemma pwd_exported_roundtrip_witness :
  exists h,
    pwd.NewHasher (go := toy.go) = Value h
    /\ pwd.Hasher.ComputeHash (go := toy.go) h "Just4Now"
       = Value ("pbkdf2/hmacsha256/12/G8."
                ++ toy.EncodeToString (List.map sample.filled (List.seq 0 32))
                ++ "."
                ++ toy.EncodeToString
                     (match toy.Key (list_byte_of_string "Just4Now")
                              (List.map sample.filled (List.seq 0 32))
                              (toy.DecodeToInt "G8") (toy.DecodeToInt "12") tt with
                      | Some key => key
                      | None => []
                      end))%string
    /\ pwd.Validator.ValidatePassword (pwd.NewValidator (go := toy.go)) "Just4Now"
         ("pbkdf2/hmacsha256/12/G8."
          ++ toy.EncodeToString (List.map sample.filled (List.seq 0 32))
          ++ "."
          ++ toy.EncodeToString
               (match toy.Key (list_byte_of_string "Just4Now")
                        (List.map sample.filled (List.seq 0 32))
                        (toy.DecodeToInt "G8") (toy.DecodeToInt "12") tt with
                | Some key => key
                | None => []
                end))%string
       = Value (true, false).
Proof.
  apply (pwd_exported_roundtrip (go := toy.go) (spec := toy_spec) "Just4Now" sample.filled).
  - discriminate.
  - reflexivity.
  - vm_compute. reflexivity.
Defined.

Lemma pwd_foreign_strategy_mismatch_witness :
  pwd.Validator.ValidatePassword (pwd.NewValidator (go := toy.go)) "Just4Now"
    "bcrypt/12.00ff.00ff"
  = Value (false, false).
Proof.
  apply (pwd_foreign_strategy_mismatch (go := toy.go) "Just4Now" "bcrypt/12.00ff.00ff").
  reflexivity.
Defined.

(** ** [pwd]: password policies *)

Lemma decode_length_bounded (n : nat) :
  forall s, (List.length s <= n)%nat ->
    (List.length (utf8.decode s) <= List.length s)%nat.
Proof.
  induction n as [|n IH]; intros s Hn.
  - destruct s; [simpl; lia | simpl in Hn; lia].
  - destruct s as [|s0 rest]; [simpl; lia|].
    assert (Hrest : (List.length (utf8.decode rest) <= List.length rest)%nat)
      by (apply IH; simpl in Hn; lia).
    cbn [utf8.decode]. cbv zeta.
    destruct (intOfByte s0 <? 128); [simpl; lia|].
    destruct ((194 <=? intOfByte s0) && (intOfByte s0 <=? 223)).
    { destruct rest as [|s1 rest1]; [simpl; lia|].
      destruct (utf8.within 128 191 s1); [|simpl in *; lia].
      assert (List.length (utf8.decode rest1) <= List.length rest1)%nat
        by (apply IH; simpl in Hn; lia).
      simpl. lia. }
    destruct ((224 <=? intOfByte s0) && (intOfByte s0 <=? 239)).
    { destruct rest as [|s1 [|s2 rest2]]; try (simpl in *; lia).
      destruct (utf8.within _ _ s1 && utf8.within 128 191 s2); [|simpl in *; lia].
      assert (List.length (utf8.decode rest2) <= List.length rest2)%nat
        by (apply IH; simpl in Hn; lia).
      simpl. lia. }
    destruct ((240 <=? intOfByte s0) && (intOfByte s0 <=? 244)).
    { destruct rest as [|s1 [|s2 [|s3 rest3]]]; try (simpl in *; lia).
      destruct (utf8.within _ _ s1 && utf8.within 128 191 s2 && utf8.within 128 191 s3);
        [|simpl in *; lia].
      assert (List.length (utf8.decode rest3) <= List.length rest3)%nat
        by (apply IH; simpl in Hn; lia).
      simpl. lia. }
    simpl. lia.
Qed.

Lemma length_list_byte_of_string (s : string) :
  List.length (list_byte_of_string s) = String.length s.
Proof.
  induction s as [|c s IH]; [reflexivity|].
  change (list_byte_of_string (String c s))
    with (byte_of_ascii c :: list_byte_of_string s).
  simpl. now rewrite IH.
Qed.

Lemma rangeString_length (s : string) : len (utf8.rangeString s) <= strlen s.
Proof.
  unfold utf8.rangeString, len, strlen.
  pose proof (decode_length_bounded _ (list_byte_of_string s) (le_n _)) as H.
  rewrite length_list_byte_of_string in H. lia.
Qed.

Lemma count_fold (m : Z -> bool) (l : list Z) (c : Z) :
  fold_left (fun (count : Z) (r : Z) => if m r then count + 1 else count) l c
  = c + len (List.filter m l).
Proof.
  revert c. induction l as [|r l IH]; intros c; simpl.
  - unfold len. simpl. lia.
  - rewrite IH. destruct (m r); [|reflexivity].
    unfold len. simpl. lia.
Qed.

Lemma genericValidateFunc_value (m : Z -> bool) (minCount : Z) (group password : string) :
  pwd_policy.genericValidateFunc m minCount group password
  = if minCount <=? len (List.filter m (utf8.rangeString password))
    then (true, ""%string)
    else (false, ("password must have at least " ++ itoa minCount ++ " " ++ group)%string).
Proof.
  unfold pwd_policy.genericValidateFunc. rewrite count_fold, Z.add_0_l.
  destruct (Z.ltb_spec (len (List.filter m (utf8.rangeString password))) minCount);
    destruct (Z.leb_spec minCount (len (List.filter m (utf8.rangeString password))));
    try reflexivity; lia.
Qed.

Lemma Policy_fold (password : string) (funcs : list pwd_policy.validateFunc)
  (acc : list string) :
  fold_left
    (fun (errMsgs : list string) (f : pwd_policy.validateFunc) =>
       let (ok, errMsg) := f password in
       if negb ok then errMsgs ++ [errMsg] else errMsgs)
    funcs acc
  = acc ++ List.map (fun f => snd (f password))
             (List.filter (fun f => negb (fst (f password))) funcs).
Proof.
  revert acc. induction funcs as [|f funcs IH]; intros acc.
  - simpl. now rewrite app_nil_r.
  - cbn [fold_left List.filter]. rewrite IH.
    destruct (f password) as [ok errMsg] eqn:E. cbn [fst snd].
    destruct ok; cbn [negb List.map]; [reflexivity|].
    rewrite E. cbn [snd]. now rewrite <- app_assoc.
Qed.

Lemma filter_nonempty_existsb {A : Type} (m : A -> bool) (l : list A) :
  (1 <=? len (List.filter m l)) = existsb m l.
Proof.
  induction l as [|x l IH]; [reflexivity|]. simpl.
  destruct (m x); simpl; [|exact IH].
  unfold len. simpl. destruct (Z.leb_spec 1 (Z.pos (Pos.of_succ_nat (List.length (List.filter m l)))));
    [reflexivity | lia].
Qed.

Lemma Policy_value (funcs : list pwd_policy.validateFunc) (password : string) :
  pwd_policy.Policy funcs password
  = (forallb (fun f => fst (f password)) funcs,
     List.map (fun f => snd (f password))
       (List.filter (fun f => negb (fst (f password))) funcs)).
Proof.
  unfold pwd_policy.Policy. rewrite Policy_fold. cbn [app]. f_equal.
  induction funcs as [|f funcs IH]; [reflexivity|].
  cbn [forallb List.filter]. destruct (fst (f password)); cbn [negb andb].
  - exact IH.
  - unfold len. reflexivity.
Qed.

Section Policies.
Context {unicode : GoUnicode}.

(** X21.  The four character checks count code points of the password,
    read as UTF-8: each passes exactly when at least [minCount] of them
    are in its class, so always for a [minCount] of 0 or less, and else
    names the class in its message, in the plural from 2 on. *)
Theorem policy_character_checks (minCount : Z) (password : string) :
  let runes := utf8.rangeString password in
  let plural := if 1 <? minCount then "s"%string else ""%string in
  let verdict (count : Z) (group : string) :=
    if minCount <=? count then (true, ""%string)
    else (false,
          ("password must have at least " ++ itoa minCount ++ " " ++ group
           ++ plural)%string) in
  pwd_policy.UpperCaseCheck minCount password
  = verdict (len (List.filter unicode_IsUpper runes)) "uppercase letter"%string
  /\ pwd_policy.LowerCaseCheck minCount password
     = verdict (len (List.filter unicode_IsLower runes)) "lowercase letter"%string
  /\ pwd_policy.DigitsCheck minCount password
     = verdict (len (List.filter unicode_IsDigit runes)) "digit"%string
  /\ pwd_policy.SpecialCharCheck minCount password
     = verdict
         (len (List.filter
                 (fun r => existsb (fun c => r =? c) (utf8.rangeString pwd_policy.special))
                 runes))
         "special character"%string.
Proof.
  cbv zeta.
  unfold pwd_policy.UpperCaseCheck, pwd_policy.LowerCaseCheck, pwd_policy.DigitsCheck,
    pwd_policy.SpecialCharCheck.
  cbv zeta. rewrite !genericValidateFunc_value.
  destruct (1 <? minCount); repeat split; reflexivity.
Qed.

(** X22.  [LengthCheck] measures bytes: it passes exactly when the
    password has at least [minLength] bytes.  So it passes every password
    of at least [minLength] characters, and some of fewer. *)
Theorem policy_LengthCheck_counts_bytes (minLength : Z) (password : string) :
  (fst (pwd_policy.LengthCheck minLength password) = true <-> minLength <= strlen password)
  /\ (minLength <= len (utf8.rangeString password) ->
      pwd_policy.LengthCheck minLength password = (true, ""%string)).
Proof.
  pose proof (rangeString_length password) as Hr.
  unfold pwd_policy.LengthCheck.
  destruct (Z.ltb_spec (strlen password) minLength); cbn [fst]; split.
  - split; [discriminate | lia].
  - intros; lia.
  - split; [lia | reflexivity].
  - reflexivity.
Qed.

(** X23.  [Policy] runs every check, in order, whatever the earlier ones
    gave: it accepts exactly when every check accepts, and its messages
    are those of the checks that do not, in the order of the checks. *)
Theorem policy_Policy_collects (funcs : list pwd_policy.validateFunc) (password : string) :
  pwd_policy.Policy funcs password
  = (forallb (fun f => fst (f password)) funcs,
     List.map (fun f => snd (f password))
       (List.filter (fun f => negb (fst (f password))) funcs)).
Proof. apply Policy_value. Qed.

(** X24.  What the default policy asks: it accepts a password exactly
    when it has at least 8 bytes and, among its code points, an uppercase
    letter, a lowercase letter, a digit and one of the 36 special
    characters. *)
Theorem policy_DefaultPolicy_accepts_iff (password : string) :
  let runes := utf8.rangeString password in
  fst (pwd_policy.DefaultPolicy password) = true
  <-> 8 <= strlen password
      /\ existsb unicode_IsUpper runes = true
      /\ existsb unicode_IsLower runes = true
      /\ existsb unicode_IsDigit runes = true
      /\ existsb (fun r => existsb (fun c => r =? c) (utf8.rangeString pwd_policy.special))
           runes = true.
Proof.
  cbv zeta. unfold pwd_policy.DefaultPolicy.
  rewrite Policy_value. cbn [fst forallb].
  unfold pwd_policy.UpperCaseCheck, pwd_policy.LowerCaseCheck, pwd_policy.DigitsCheck,
    pwd_policy.SpecialCharCheck, pwd_policy.LengthCheck.
  cbv zeta. rewrite !genericValidateFunc_value, !filter_nonempty_existsb.
  change (1 <? 1) with false. cbv iota.
  destruct (Z.ltb_spec (strlen password) 8);
    destruct (existsb unicode_IsUpper _), (existsb unicode_IsLower _),
      (existsb unicode_IsDigit _), (existsb _ (utf8.rangeString password));
    cbn [fst andb]; split; try discriminate; try tauto; try lia;
    intros (? & ? & ? & ? & ?); try discriminate; lia.
Qed.

End Policies.

Lemma policy_LengthCheck_counts_bytes_witness :
  pwd_policy.LengthCheck 4 "££abc"%string = (true, ""%string)
  /\ fst (pwd_policy.LengthCheck 8 "££££"%string) = true
  /\ len (utf8.rangeString "££££") = 4.
Proof.
  split; [|split].
  - apply (proj2 (policy_LengthCheck_counts_bytes 4 "££abc")). vm_compute. discriminate.
  - apply (proj2 (proj1 (policy_LengthCheck_counts_bytes 8 "££££"))). vm_compute. discriminate.
  - reflexivity.
Defined.

Lemma policy_DefaultPolicy_accepts_iff_witness :
  fst (pwd_policy.DefaultPolicy (unicode := sample.unicode) "Just4Now!"%string) = true.
Proof.
  apply (proj2 (policy_DefaultPolicy_accepts_iff (unicode := sample.unicode) "Just4Now!")).
  repeat split; try reflexivity. vm_compute. discriminate.
Defined.

(** The tests of [policy.go], with [unicode] on ASCII. *)
Example SpecialCharCheck_euro :
  pwd_policy.SpecialCharCheck 1 "€"%string = (true, ""%string)
  /\ List.length (utf8.rangeString pwd_policy.special) = 36%nat.
Proof. split; vm_compute; reflexivity. Qed.

Example Test_Happy :
  fst (pwd_policy.Policy
         [pwd_policy.LengthCheck 8; pwd_policy.DigitsCheck (unicode := sample.unicode) 1;
          pwd_policy.LowerCaseCheck (unicode := sample.unicode) 1;
          pwd_policy.UpperCaseCheck (unicode := sample.unicode) 1]
         "Just4Now"%string) = true.
Proof. vm_compute. reflexivity. Qed.

Example Test_Unhappy :
  forallb
    (fun pw =>
       negb (fst (pwd_policy.Policy
                    [pwd_policy.LengthCheck 10;
                     pwd_policy.DigitsCheck (unicode := sample.unicode) 1;
                     pwd_policy.LowerCaseCheck (unicode := sample.unicode) 1;
                     pwd_policy.UpperCaseCheck (unicode := sample.unicode) 1]
                    pw)))
    ["to0sHo3t"; "LongButNoDigits"; "longanddigitsbutnouppercase10";
     "LONGBUTNOLOWERCASE10"]%string = true.
Proof. vm_compute. reflexivity. Qed.
